(** * Skool community scraper: a shallow embedding of [skool_scraper.py]

    The development follows the source file top to bottom: the Python
    builtins the scraper relies on, the Selenium element interface, the
    [Post] record, the pagination loader [scroll_and_load_posts], the field
    extractor [extract_post_data], the batch driver [scrape_posts] and the
    two exporters [save_to_json] and [save_to_csv].

    Conventions.
    - A Python [str] is a [string]; each [ascii] stands for one code point
      below 256, so [len] is [String.length] and the character classes below
      are Python's, restricted to that range.
    - A Python [int] is a [Z].
    - A call that may raise returns a [result]; [try]/[except] is a match on
      the exception raised.
    - What the browser answers (element lookups, attributes, texts, the list
      of feed elements seen after each scroll) is an input of the model. *)

From Stdlib Require Import ZArith List String Ascii Bool Arith Lia.
From Stdlib Require Import DecimalString DecimalPos.
Import ListNotations.

Local Open Scope string_scope.
Local Open Scope Z_scope.

(** ** Python builtins *)

Module Py.

(** The exception classes the scraper meets. [WebDriverException] stands for
    any other subclass of [Exception] a driver call may raise (a stale
    element, a lost session, ...). *)
Inductive Exception : Type :=
| NoSuchElementException
| ValueError
| UnboundLocalError
| WebDriverException (msg : string).

Inductive result (A : Type) : Type :=
| Ok (a : A)
| Raise (e : Exception).

Arguments Ok {A} a.
Arguments Raise {A} e.

Definition bind {A B : Type} (c : result A) (k : A -> result B) : result B :=
  match c with
  | Ok a => k a
  | Raise e => Raise e
  end.

(** [except (E1, E2): ...]: does the clause catch the exception? *)
Definition is_NoSuchElement (e : Exception) : bool :=
  match e with NoSuchElementException => true | _ => false end.

Definition is_NoSuchElement_or_ValueError (e : Exception) : bool :=
  match e with NoSuchElementException | ValueError => true | _ => false end.

Definition ord (c : ascii) : nat := nat_of_ascii c.

(** [str.isdigit] on one character: the decimal digits and the three
    superscript digits of Latin-1 (U+00B2, U+00B3, U+00B9). *)
Definition isdigit (c : ascii) : bool :=
  let n := ord c in
  ((48 <=? n) && (n <=? 57) || (n =? 178) || (n =? 179) || (n =? 185))%nat.

(** The characters [int] accepts as digits (category Nd). *)
Definition isdecimal (c : ascii) : bool :=
  let n := ord c in ((48 <=? n) && (n <=? 57))%nat.

(** [str.isspace] on one character. *)
Definition isspace (c : ascii) : bool :=
  let n := ord c in
  ((9 <=? n) && (n <=? 13) || (28 <=? n) && (n <=? 32)
   || (n =? 133) || (n =? 160))%nat.

Fixpoint lstrip (s : string) : string :=
  match s with
  | EmptyString => EmptyString
  | String c s' => if isspace c then lstrip s' else s
  end.

Fixpoint rstrip (s : string) : string :=
  match s with
  | EmptyString => EmptyString
  | String c s' =>
      match rstrip s' with
      | EmptyString => if isspace c then EmptyString else String c EmptyString
      | t => String c t
      end
  end.

(** [s.strip()] *)
Definition strip (s : string) : string := rstrip (lstrip s).

(** [''.join(filter(p, s))] *)
Fixpoint filter_join (p : ascii -> bool) (s : string) : string :=
  match s with
  | EmptyString => EmptyString
  | String c s' => if p c then String c (filter_join p s') else filter_join p s'
  end.

Fixpoint int_digits (acc : Z) (s : string) : result Z :=
  match s with
  | EmptyString => Ok acc
  | String c s' =>
      if isdecimal c
      then int_digits (10 * acc + (Z.of_nat (ord c) - 48)) s'
      else Raise ValueError
  end.

(** [int(s)] for a string of digit characters, as the scraper calls it: the
    empty string and a character that is no decimal digit are a
    [ValueError].  The interpreter's configurable cap on the number of digits
    it converts is left out. *)
Definition int (s : string) : result Z :=
  match s with
  | EmptyString => Raise ValueError
  | _ => int_digits 0 s
  end.

(** [str(n)] for an integer. *)
Definition str (n : Z) : string := NilZero.string_of_int (Z.to_int n).

(** [len(s)] *)
Definition len (s : string) : Z := Z.of_nat (String.length s).

(** [s[:stop]] and [s[start:stop]] for literal non-negative bounds. *)
Definition str_slice (start stop : nat) (s : string) : string :=
  substring start (stop - start) s.

(** [l[:stop]] for a list and any integer [stop]: a negative bound counts
    from the end. *)
Definition list_slice_to {A : Type} (stop : Z) (l : list A) : list A :=
  if stop <? 0
  then firstn (Z.to_nat (Z.of_nat (List.length l) + stop)) l
  else firstn (Z.to_nat stop) l.

(** Truth value of a [str | None]: [None] and [''] are false. *)
Definition truthy (o : option string) : bool :=
  match o with
  | Some (String _ _) => true
  | _ => false
  end.

(** [s.startswith(p)] *)
Definition startswith (p s : string) : bool := String.prefix p s.

(** Zero padding of a non-negative number to [width] characters, as the
    [%02d]-style fields of [isoformat] and [strftime]. *)
Definition zfill (width : nat) (n : Z) : string :=
  let s := str n in
  String.concat "" (repeat "0" (width - String.length s)) ++ s.

End Py.

Notation "x <- c ;; k" := (Py.bind c (fun x => k))
  (at level 61, c at next level, right associativity).

(** [datetime]: a naive (zone-less) point in time, as [datetime.now()]
    returns it. *)
Record datetime : Type := mkDatetime {
  year : Z; month : Z; day : Z;
  hour : Z; minute : Z; second : Z; microsecond : Z }.

(** [d.isoformat()]: the microseconds are printed only when non-zero. *)
Definition isoformat (d : datetime) : string :=
  Py.zfill 4 (year d) ++ "-" ++ Py.zfill 2 (month d) ++ "-" ++ Py.zfill 2 (day d)
  ++ "T" ++ Py.zfill 2 (hour d) ++ ":" ++ Py.zfill 2 (minute d) ++ ":"
  ++ Py.zfill 2 (second d)
  ++ (if microsecond d =? 0 then "" else "." ++ Py.zfill 6 (microsecond d)).

(** [d.strftime("%Y%m%d_%H%M%S")] *)
Definition strftime_compact (d : datetime) : string :=
  Py.zfill 4 (year d) ++ Py.zfill 2 (month d) ++ Py.zfill 2 (day d) ++ "_"
  ++ Py.zfill 2 (hour d) ++ Py.zfill 2 (minute d) ++ Py.zfill 2 (second d).

(** A value stored in an exported row: the rows hold strings and integers
    only. *)
Inductive Value : Type :=
| VStr (s : string)
| VInt (n : Z).

(** A Python [dict] with string keys, in insertion order. *)
Definition Dict : Type := list (string * Value).

(** ** The Selenium interface *)

Module Selenium.

(** A [WebElement] is what it answers: [get_attribute(name)] (a string or
    [None]), [.text], and [find_element(By.CSS_SELECTOR, selector)] (the
    first matching descendant, or [NoSuchElementException]).  Each call may
    also raise another driver exception. *)
#[warnings="-register-all"]
Inductive WebElement : Type := mkWebElement {
  get_attribute : string -> Py.result (option string);
  text : Py.result string;
  find_element : string -> Py.result WebElement }.

(** The browser session held in [self.driver]: the page address, and what
    [find_elements(By.CSS_SELECTOR, "[data-testid='post'], .post,
    .feed-item")] answers at the k-th poll of the feed (k = 0, 1, ...), each
    poll coming after one more scroll to the bottom of the page.  A poll
    always answers with a list, empty when nothing matches; a session that
    fails while scrolling is not modelled. *)
Record WebDriver : Type := mkWebDriver {
  current_url : string;
  find_elements : nat -> list WebElement }.

End Selenium.
Import Selenium.

(** ** The records *)

Module Post.
(** [@dataclass class Post]; [category] and [comments] take their defaults
    wherever the scraper builds a post. *)
Record t : Type := mk {
  id : string;
  title : string;
  content : string;
  author : string;
  timestamp : datetime;
  likes : Z;
  comments_count : Z;
  url : string;
  category : string;
  comments : list Dict }.
End Post.

Module Comment.
(** [@dataclass class Comment] *)
Record t : Type := mk {
  id : string;
  content : string;
  author : string;
  timestamp : datetime;
  likes : Z;
  replies : list Dict }.
End Comment.

(** [class SkoolScraper]: the fields of [self] the modelled methods read or
    write. *)
Record SkoolScraper : Type := mkSkoolScraper {
  community_url : string;
  headless : bool;
  driver : WebDriver;
  posts : list Post.t }.

(** ** The pagination loader: [scroll_and_load_posts] *)

(** What one pass through the loop body did: the feed grew to [n] elements,
    or the scroll brought nothing new. *)
Inductive Attempt : Type :=
| Growth (n : Z)
| Stall.

(** The local variables of [scroll_and_load_posts].  [post_elements] is
    bound by the first pass through the loop body and by nothing before it.
    [attempts] is not a variable of the program: it records what each pass
    did, the latest first. *)
Record LoopState : Type := mkLoopState {
  posts_loaded : Z;
  scroll_attempts : Z;
  post_elements : option (list WebElement);
  attempts : list Attempt }.

Definition max_scroll_attempts : Z := 10.

(** The state before the loop. *)
Definition loop_init : LoopState :=
  {| posts_loaded := 0; scroll_attempts := 0;
     post_elements := None; attempts := [] |}.

(** [posts_loaded < max_posts and scroll_attempts < max_scroll_attempts] *)
Definition loop_test (max_posts : Z) (st : LoopState) : bool :=
  (posts_loaded st <? max_posts) && (scroll_attempts st <? max_scroll_attempts).

(** One pass through the loop body: scroll, poll the feed, compare.  The
    poll answered is the one numbered by the passes made so far. *)
Definition loop_body (d : WebDriver) (st : LoopState) : LoopState :=
  let found := find_elements d (List.length (attempts st)) in
  let current_count := Z.of_nat (List.length found) in
  if current_count >? posts_loaded st
  then {| posts_loaded := current_count;
          scroll_attempts := scroll_attempts st;
          post_elements := Some found;
          attempts := Growth current_count :: attempts st |}
  else {| posts_loaded := posts_loaded st;
          scroll_attempts := scroll_attempts st + 1;
          post_elements := Some found;
          attempts := Stall :: attempts st |}.

(** The [while] loop, unfolded at most [fuel] times: [None] when the fuel
    runs out with the test still true. *)
Fixpoint scroll_loop (d : WebDriver) (max_posts : Z) (fuel : nat)
  (st : LoopState) : option LoopState :=
  if loop_test max_posts st
  then match fuel with
       | O => None
       | S fuel' => scroll_loop d max_posts fuel' (loop_body d st)
       end
  else Some st.

(** The number of passes after which the test must have failed: every pass
    either raises [posts_loaded] or raises [scroll_attempts]. *)
Definition loop_variant (max_posts : Z) (st : LoopState) : nat :=
  (Z.to_nat (max_posts - posts_loaded st)
   + Z.to_nat (max_scroll_attempts - scroll_attempts st))%nat.

(** The outcome of a call: a returned value, a raised exception, or a model
    that ran out of fuel. *)
Inductive Outcome (A : Type) : Type :=
| Returned (a : A)
| Raised (e : Py.Exception)
| OutOfFuel.

Arguments Returned {A} a.
Arguments Raised {A} e.
Arguments OutOfFuel {A}.

(** [return post_elements[:max_posts]]: reading a local that no pass has
    bound raises [UnboundLocalError]. *)
Definition loop_return (max_posts : Z) (st : LoopState)
  : Outcome (list WebElement) :=
  match post_elements st with
  | None => Raised Py.UnboundLocalError
  | Some found => Returned (Py.list_slice_to max_posts found)
  end.

(** The run of the loop of a call, from the state before the loop. *)
Definition scroll_run (d : WebDriver) (max_posts : Z) : option LoopState :=
  scroll_loop d max_posts (loop_variant max_posts loop_init) loop_init.

Definition scroll_and_load_posts (self : SkoolScraper) (max_posts : Z)
  : Outcome (list WebElement) :=
  match scroll_run (driver self) max_posts with
  | None => OutOfFuel
  | Some st => loop_return max_posts st
  end.

(** ** The field extractor: [extract_post_data] *)

Definition title_selectors : list string :=
  [".post-title"; "[data-testid='post-title']"; "h1, h2, h3"; ".content-title"].

Definition content_selectors : list string :=
  [".post-content"; "[data-testid='post-content']"; ".content-body";
   ".post-text"; "p"].

Definition author_selectors : list string :=
  [".author-name"; "[data-testid='author']"; ".post-author"; ".user-name"].

Definition time_selectors : list string :=
  ["[data-testid='timestamp']"; ".timestamp"; ".post-time"; "time"].

Definition like_selectors : list string :=
  [".like-count"; "[data-testid='likes']"; ".likes"].

Definition comment_selectors : list string :=
  [".comment-count"; "[data-testid='comments']"; ".comments"].

(** The loop every field shares:
<<
    for selector in selectors:
        try:
            current = attempt(selector)
            break
        except catches:
            continue
>>
    An exception the clause does not catch leaves the loop. *)
Fixpoint first_match {A : Type} (catches : Py.Exception -> bool)
  (attempt : string -> Py.result A) (selectors : list string) (current : A)
  : Py.result A :=
  match selectors with
  | [] => Py.Ok current
  | selector :: rest =>
      match attempt selector with
      | Py.Ok v => Py.Ok v
      | Py.Raise e =>
          if catches e then first_match catches attempt rest current
          else Py.Raise e
      end
  end.

(** [post_element.find_element(By.CSS_SELECTOR, selector).text.strip()] *)
Definition stripped_text (post_element : WebElement) (selector : string)
  : Py.result string :=
  elem <- find_element post_element selector ;;
  t <- text elem ;;
  Py.Ok (Py.strip t).

(** The body of the [try] of the time loop: the text of the element found
    is computed into [time_text] and nothing reads it afterwards. *)
Definition time_text_of (post_element : WebElement) (selector : string)
  : Py.result (option string) :=
  time_elem <- find_element post_element selector ;;
  a <- get_attribute time_elem "datetime" ;;
  if Py.truthy a then Py.Ok a
  else (t <- text time_elem ;; Py.Ok (Some t)).

(** The body of the [try] of the likes and comments loops:
    [int(''.join(filter(str.isdigit, elem.text.strip()))) or 0]. *)
Definition count_of (post_element : WebElement) (selector : string)
  : Py.result Z :=
  elem <- find_element post_element selector ;;
  t <- text elem ;;
  n <- Py.int (Py.filter_join Py.isdigit (Py.strip t)) ;;
  Py.Ok (if n =? 0 then 0 else n).

(** The likes loop and the comments loop, for their list of selectors. *)
Definition count_from (selectors : list string) (post_element : WebElement)
  : Py.result Z :=
  first_match Py.is_NoSuchElement_or_ValueError (count_of post_element)
    selectors 0.

(** The address of the post: the first link of the element when it is an
    absolute one, the page's address otherwise. *)
Definition post_url_of (page_url : string) (post_element : WebElement)
  : Py.result string :=
  match
    (link_elem <- find_element post_element "a" ;;
     href <- get_attribute link_elem "href" ;;
     Py.Ok (match href with
            | Some h => if Py.truthy href && Py.startswith "http" h
                        then h else page_url
            | None => page_url
            end))
  with
  | Py.Ok u => Py.Ok u
  | Py.Raise e => if Py.is_NoSuchElement e then Py.Ok page_url else Py.Raise e
  end.

(** [content[:100] + "..." if len(content) > 100 else content] *)
Definition title_from_content (content : string) : string :=
  if Py.len content >? 100
  then Py.str_slice 0 100 content ++ "..."
  else content.

Section Extractor.

(** Python's builtin [hash] on the values [get_attribute] returns.  Its
    values on strings depend on a seed drawn when the interpreter starts, so
    the model takes the function as given. *)
Variable hash : option string -> Z.

(** [a or b or str(hash(c))[1:10]], each operand evaluated only when the
    ones before it are false. *)
Definition post_id_of (post_element : WebElement) : Py.result string :=
  a <- get_attribute post_element "data-post-id" ;;
  match a with
  | Some (String c s) => Py.Ok (String c s)
  | _ =>
      b <- get_attribute post_element "id" ;;
      match b with
      | Some (String c s) => Py.Ok (String c s)
      | _ =>
          h <- get_attribute post_element "outerHTML" ;;
          Py.Ok (Py.str_slice 1 10 (Py.str (hash h)))
      end
  end.

(** The body of the outer [try].  [now] is what [datetime.now()] answers
    when the extraction reaches it, [page_url] is [self.driver.current_url]. *)
Definition extract_post_data_try (now : datetime) (page_url : string)
  (post_element : WebElement) : Py.result Post.t :=
  post_id <- post_id_of post_element ;;
  title <- first_match Py.is_NoSuchElement (stripped_text post_element)
             title_selectors "" ;;
  content <- first_match Py.is_NoSuchElement (stripped_text post_element)
               content_selectors "" ;;
  let title :=
    if negb (Py.truthy (Some title)) && Py.truthy (Some content)
    then title_from_content content else title in
  author <- first_match Py.is_NoSuchElement (stripped_text post_element)
              author_selectors "Unknown" ;;
  let timestamp := now in
  time_text <- first_match Py.is_NoSuchElement (time_text_of post_element)
                 time_selectors None ;;
  likes <- count_from like_selectors post_element ;;
  comments_count <- count_from comment_selectors post_element ;;
  post_url <- post_url_of page_url post_element ;;
  Py.Ok {| Post.id := post_id;
           Post.title := title;
           Post.content := content;
           Post.author := author;
           Post.timestamp := timestamp;
           Post.likes := likes;
           Post.comments_count := comments_count;
           Post.url := post_url;
           Post.category := "";
           Post.comments := [] |}.

(** [except Exception: return None] *)
Definition extract_post_data (self : SkoolScraper) (now : datetime)
  (post_element : WebElement) : option Post.t :=
  match extract_post_data_try now (current_url (driver self)) post_element with
  | Py.Ok post => Some post
  | Py.Raise _ => None
  end.

(** ** The batch: [scrape_posts] *)

(** The loop over the loaded elements: the i-th extraction reads the clock
    once, [clock i]; a result that is not [None] is appended. *)
Fixpoint extract_each (self : SkoolScraper) (clock : nat -> datetime)
  (i : nat) (elements : list WebElement) (scraped_posts : list Post.t)
  : list Post.t :=
  match elements with
  | [] => scraped_posts
  | post_element :: rest =>
      match extract_post_data self (clock i) post_element with
      | Some post_data =>
          extract_each self clock (S i) rest (scraped_posts ++ [post_data])
      | None => extract_each self clock (S i) rest scraped_posts
      end
  end.

(** [scrape_posts] returns the new [self] (its [posts] replaced) with the
    list the method returns.  An exception of the loader is not caught
    here. *)
Definition scrape_posts (self : SkoolScraper) (clock : nat -> datetime)
  (max_posts : Z) : Outcome (SkoolScraper * list Post.t) :=
  match scroll_and_load_posts self max_posts with
  | Returned elements =>
      let scraped_posts := extract_each self clock 0 elements [] in
      Returned ({| community_url := community_url self;
                   headless := headless self;
                   driver := driver self;
                   posts := scraped_posts |}, scraped_posts)
  | Raised e => Raised e
  | OutOfFuel => OutOfFuel
  end.

End Extractor.

(** ** The exporters: [save_to_json] and [save_to_csv] *)

(** [os.path.join("Skool", filename)]: an absolute [filename] replaces the
    directory. *)
Definition path_join_Skool (filename : string) : string :=
  if Py.startswith "/" filename then filename else "Skool/" ++ filename.

(** [if not filename: filename = f"skool_posts_{now:%Y%m%d_%H%M%S}<ext>"] *)
Definition default_filename (now : datetime) (ext : string)
  (filename : option string) : string :=
  if Py.truthy filename
  then match filename with Some f => f | None => "" end
  else "skool_posts_" ++ strftime_compact now ++ ext.

(** The loop of [save_to_json]: one [post_dict] appended per post. *)
Fixpoint json_posts_data (todo : list Post.t) (posts_data : list Dict)
  : list Dict :=
  match todo with
  | [] => posts_data
  | post :: rest =>
      let post_dict : Dict :=
        [("id", VStr (Post.id post));
         ("title", VStr (Post.title post));
         ("content", VStr (Post.content post));
         ("author", VStr (Post.author post));
         ("timestamp", VStr (isoformat (Post.timestamp post)));
         ("likes", VInt (Post.likes post));
         ("comments_count", VInt (Post.comments_count post));
         ("url", VStr (Post.url post));
         ("category", VStr (Post.category post))] in
      json_posts_data rest (posts_data ++ [post_dict])
  end.

(** The loop of [save_to_csv]: one dictionary appended per post. *)
Fixpoint csv_posts_data (todo : list Post.t) (posts_data : list Dict)
  : list Dict :=
  match todo with
  | [] => posts_data
  | post :: rest =>
      csv_posts_data rest
        (posts_data ++
         [[("id", VStr (Post.id post));
           ("title", VStr (Post.title post));
           ("content", VStr (Post.content post));
           ("author", VStr (Post.author post));
           ("timestamp", VStr (isoformat (Post.timestamp post)));
           ("likes", VInt (Post.likes post));
           ("comments_count", VInt (Post.comments_count post));
           ("url", VStr (Post.url post));
           ("category", VStr (Post.category post))]])
  end.

Module Pandas.

(** A data frame: the column labels and, per row, the cell under each label
    ([None] where the record had no such key). *)
Record DataFrame : Type := mkDataFrame {
  columns : list string;
  rows : list (list (option Value)) }.

Fixpoint get (key : string) (d : Dict) : option Value :=
  match d with
  | [] => None
  | (k, v) :: rest => if String.eqb k key then Some v else get key rest
  end.

Definition has_label (label : string) (labels : list string) : bool :=
  existsb (String.eqb label) labels.

(** The labels of a list of records: every key, in the order in which the
    keys first appear. *)
Fixpoint labels_of (data : list Dict) (labels : list string) : list string :=
  match data with
  | [] => labels
  | d :: rest =>
      labels_of rest
        (fold_left (fun acc kv =>
                      if has_label (fst kv) acc then acc else (acc ++ [fst kv])%list)
                   d labels)
  end.

(** [pd.DataFrame(data)] for a list of records. *)
Definition of_records (data : list Dict) : DataFrame :=
  let labels := labels_of data [] in
  {| columns := labels;
     rows := List.map (fun d => List.map (fun label => get label d) labels) data |}.

End Pandas.

(** What [save_to_json] hands to [json.dump], with the path it writes to and
    returns. *)
Definition save_to_json (self : SkoolScraper) (now : datetime)
  (filename : option string) : string * list Dict :=
  let filename := default_filename now ".json" filename in
  let filepath := path_join_Skool filename in
  let posts_data := json_posts_data (posts self) [] in
  (filepath, posts_data).

(** What [save_to_csv] writes with [df.to_csv(filepath, index=False)]: the
    frame built from its records, with the path it writes to and returns. *)
Definition save_to_csv (self : SkoolScraper) (now : datetime)
  (filename : option string) : string * Pandas.DataFrame :=
  let filename := default_filename now ".csv" filename in
  let filepath := path_join_Skool filename in
  let posts_data := csv_posts_data (posts self) [] in
  let df := Pandas.of_records posts_data in
  (filepath, df).

(** * The specification's words and sample inputs *)

(** ** The pagination loader *)

(** The test of the loop as the specification words it: the loaded count is
    below the maximum and the run of no-growth passes since the last growth
    is below the cap. *)
Fixpoint stall_streak (log : list Attempt) : Z :=
  match log with
  | Stall :: older => 1 + stall_streak older
  | _ => 0
  end.

Definition loop_test_consecutive (max_posts : Z) (st : LoopState) : bool :=
  (posts_loaded st <? max_posts)
  && (stall_streak (attempts st) <? max_scroll_attempts).

(** All the no-growth passes of a log, whatever separates them. *)
Fixpoint stall_count (log : list Attempt) : Z :=
  match log with
  | [] => 0
  | Stall :: older => 1 + stall_count older
  | Growth _ :: older => stall_count older
  end.

(** The state after [k] passes through the loop body. *)
Definition after_passes (d : WebDriver) (k : nat) : LoopState :=
  Nat.iter k (loop_body d) loop_init.

(** ** The field extractor and the batch *)



(** Two elements that answer alike except, possibly, for what the time
    selectors find. *)
Definition same_but_time (e e' : WebElement) : Prop :=
  (forall name, get_attribute e' name = get_attribute e name)
  /\ (forall selector, ~ In selector time_selectors ->
        find_element e' selector = find_element e selector).

(** The results of a batch as the specification words them: the results
    that are not null, in the order of the elements. *)
Fixpoint non_null (results : list (option Post.t)) : list Post.t :=
  match results with
  | [] => []
  | Some post :: rest => post :: non_null rest
  | None :: rest => non_null rest
  end.

(** The result of each extraction of a batch, the first one reading the
    clock at [i]. *)
Fixpoint results_from (hash : option string -> Z) (self : SkoolScraper)
  (clock : nat -> datetime) (i : nat) (elements : list WebElement)
  : list (option Post.t) :=
  match elements with
  | [] => []
  | post_element :: rest =>
      extract_post_data hash self (clock i) post_element
      :: results_from hash self clock (S i) rest
  end.

(** ** The exporters *)

(** The row of a post as the specification lists it: id, title, content,
    author, ISO-8601 timestamp, likes, comments_count, url, category. *)
Definition field_names : list string :=
  ["id"; "title"; "content"; "author"; "timestamp"; "likes";
   "comments_count"; "url"; "category"].

Definition field_values (post : Post.t) : list Value :=
  [VStr (Post.id post); VStr (Post.title post); VStr (Post.content post);
   VStr (Post.author post); VStr (isoformat (Post.timestamp post));
   VInt (Post.likes post); VInt (Post.comments_count post);
   VStr (Post.url post); VStr (Post.category post)].

Definition row_of (post : Post.t) : Dict :=
  combine field_names (field_values post).

(** ** Sample inputs *)

(** An element with no attribute, no text and no descendant. *)
Definition blank_element : WebElement :=
  mkWebElement (fun _ => Py.Ok None) (Py.Ok "")
    (fun _ => Py.Raise Py.NoSuchElementException).

(** A session whose k-th poll shows [size k] elements. *)
Definition feed_of_sizes (size : nat -> nat) : WebDriver :=
  {| current_url := "https://www.skool.com/community";
     find_elements := fun k => repeat blank_element (size k) |}.

Definition scraper_on (d : WebDriver) : SkoolScraper :=
  {| community_url := "https://www.skool.com/community";
     headless := true; driver := d; posts := [] |}.

(** Thirty elements at every poll. *)
Definition steady_feed : WebDriver := feed_of_sizes (fun _ => 30%nat).

(** One element for six polls, two from then on. *)
Definition stuttering_feed : WebDriver :=
  feed_of_sizes (fun k => if (k <? 6)%nat then 1%nat else 2%nat).

Fixpoint assoc {A : Type} (key : string) (l : list (string * A)) : option A :=
  match l with
  | [] => None
  | (k, v) :: rest => if String.eqb k key then Some v else assoc key rest
  end.

(** The element with the attributes [attrs], the text [txt], and, for each
    selector of [found], the element that selector finds. *)
Definition element (attrs : list (string * string)) (txt : string)
  (found : list (string * WebElement)) : WebElement :=
  mkWebElement
    (fun name => Py.Ok (assoc name attrs))
    (Py.Ok txt)
    (fun selector =>
       match assoc selector found with
       | Some e => Py.Ok e
       | None => Py.Raise Py.NoSuchElementException
       end).

(** An element whose text cannot be read any more. *)
Definition stale_element : WebElement :=
  mkWebElement (fun _ => Py.Ok None)
    (Py.Raise (Py.WebDriverException "stale element reference"))
    (fun _ => Py.Raise Py.NoSuchElementException).

(** A hash that sends the empty markup to 0, as CPython's does under every
    seed, and everything else to one fixed value. *)
Definition sample_hash (v : option string) : Z :=
  match v with
  | Some EmptyString => 0
  | _ => -6744073709551616
  end.

Definition sample_now : datetime :=
  {| year := 2024; month := 3; day := 9;
     hour := 14; minute := 5; second := 7; microsecond := 120 |}.

(** A feed item with a paragraph and no title element. *)
Definition untitled_item : WebElement :=
  element [("data-post-id", "p-17")] "" [("p", element [] " Hello world " [])].






(** A feed item with a time element. *)
Definition timed_item : WebElement :=
  element [("id", "post-5")] ""
    [("time", element [("datetime", "2019-01-01T00:00:00")] "5 years ago" [])].

(** The same feed item with another time element. *)
Definition retimed_item : WebElement :=
  element [("id", "post-5")] "" [("time", element [] "just now" [])].

(** A feed item whose paragraph has gone stale. *)
Definition broken_item : WebElement :=
  element [("id", "post-6")] "" [("p", stale_element)].

(** A session whose feed shows the same elements at every poll. *)
Definition feed_showing (elements : list WebElement) : WebDriver :=
  {| current_url := "https://www.skool.com/community";
     find_elements := fun _ => elements |}.

Definition sample_scraper : SkoolScraper := scraper_on steady_feed.

(** A batch whose second element cannot be read. *)
Definition mixed_batch : list WebElement :=
  [untitled_item; broken_item; timed_item].

Definition mixed_scraper : SkoolScraper := scraper_on (feed_showing mixed_batch).

(** * Further definitions for the rest of the file *)

(** ** The pagination loader *)

(** The largest count among the first [k] polls of the feed, 0 when there
    is none. *)
Fixpoint max_count (d : WebDriver) (k : nat) : Z :=
  match k with
  | O => 0
  | S k' => Z.max (max_count d k') (Z.of_nat (List.length (find_elements d k')))
  end.

(** Three elements at the first poll, one from then on. *)
Definition shrinking_feed : WebDriver :=
  feed_of_sizes (fun k => if (k <? 1)%nat then 3%nat else 1%nat).

(** No element at any poll. *)
Definition empty_feed : WebDriver := feed_of_sizes (fun _ => 0%nat).

(** ** The field extractor *)

(** Does the string begin, or end, with a whitespace character? *)
Definition starts_with_space (s : string) : bool :=
  match s with
  | EmptyString => false
  | String c _ => Py.isspace c
  end.

Fixpoint ends_with_space (s : string) : bool :=
  match s with
  | EmptyString => false
  | String c EmptyString => Py.isspace c
  | String _ s' => ends_with_space s'
  end.

(** Do all the characters of the string satisfy [p]? *)
Fixpoint all_chars (p : ascii -> bool) (s : string) : bool :=
  match s with
  | EmptyString => true
  | String c s' => p c && all_chars p s'
  end.

(** A feed item with an author, a counted like element and a relative
    link. *)
Definition signed_item : WebElement :=
  element [] ""
    [(".post-author", element [] "  Ada L.  " []);
     (".likes", element [] "1.2k likes" []);
     ("a", element [("href", "/post/42")] "" [])].

(** A feed item whose heading is blank. *)
Definition blank_title_item : WebElement :=
  element [("id", "post-8")] ""
    [("h1, h2, h3", element [] "   " []);
     ("p", element [] "Hello world" [])].

(** A feed item with an absolute link. *)
Definition linked_item : WebElement :=
  element [("id", "post-9")] ""
    [("a", element [("href", "https://www.skool.com/post/9")] "" [])].

(** ** Set-up, login, navigation and [main] *)

(** [c.lower()] for one character below 256: the capital letters A-Z and
    the accented capitals U+00C0-U+00DE, the multiplication sign apart. *)
Definition lower_char (c : ascii) : ascii :=
  let n := Py.ord c in
  if ((65 <=? n) && (n <=? 90) || (192 <=? n) && (n <=? 214)
      || (216 <=? n) && (n <=? 222))%nat
  then ascii_of_nat (n + 32)
  else c.

(** [s.lower()] *)
Fixpoint lower (s : string) : string :=
  match s with
  | EmptyString => EmptyString
  | String c s' => String (lower_char c) (lower s')
  end.

(** The arguments [setup_driver] gives to Chrome. *)
Definition chrome_arguments (headless : bool) : list string :=
  ((if headless then ["--headless"] else [])
   ++ ["--no-sandbox"; "--disable-dev-shm-usage"; "--window-size=1920,1080";
       "--user-agent=Mozilla/5.0 (Macintosh; Intel Mac OS X 10_15_7) AppleWebKit/537.36"])%list.

(** What the world outside the program answers during one run of [main]:
    the environment variables, whether Chrome starts, how each step of the
    login form and of the community page goes, what the feed then shows,
    the readings of the clock, and whether each output file can be
    written. *)
Record World : Type := mkWorld {
  getenv : string -> option string;
  launch_chrome : list string -> Py.result unit;
  get_login_page : Py.result unit;
  await_email_field : Py.result unit;
  send_email : string -> Py.result unit;
  find_password_field : Py.result unit;
  send_password : string -> Py.result unit;
  find_submit_button : Py.result unit;
  click_submit : Py.result unit;
  await_logged_in : Py.result unit;
  get_community_page : string -> Py.result unit;
  await_feed : Py.result unit;
  session : WebDriver;
  builtin_hash : option string -> Z;
  extraction_clock : nat -> datetime;
  json_clock : datetime;
  csv_clock : datetime;
  write_json : string -> Py.result unit;
  write_csv : string -> Py.result unit }.

(** [login]: the steps of the [try], in order; [TimeoutException] and every
    other [Exception] end in [return False]. *)
Definition login (w : World) (email password : string) : bool :=
  match
    (u1 <- get_login_page w ;;
     u2 <- await_email_field w ;;
     u3 <- send_email w email ;;
     u4 <- find_password_field w ;;
     u5 <- send_password w password ;;
     u6 <- find_submit_button w ;;
     u7 <- click_submit w ;;
     await_logged_in w)
  with
  | Py.Ok _ => true
  | Py.Raise _ => false
  end.

(** [navigate_to_community] *)
Definition navigate_to_community (w : World) (community_url : string) : bool :=
  match (u1 <- get_community_page w community_url ;; await_feed w) with
  | Py.Ok _ => true
  | Py.Raise _ => false
  end.

(** The calls of [main] that reach outside the program, in the order it
    makes them. *)
Inductive Call : Type :=
| StartChrome (arguments : list string)
| LogIn (email password : string)
| Navigate (community_url : string)
| Scrape (max_posts : Z)
| WriteJson (filepath : string)
| WriteCsv (filepath : string)
| QuitChrome.

(** [os.getenv(name, default)] *)
Definition getenv_or (w : World) (name default : string) : string :=
  match getenv w name with
  | Some v => v
  | None => default
  end.

(** [os.getenv("HEADLESS_MODE", "True").lower() == "true"] *)
Definition headless_mode (w : World) : bool :=
  String.eqb (lower (getenv_or w "HEADLESS_MODE" "True")) "true".

(** The part of the [try] of [main] after the login and the navigation:
    scrape, and save when a post came back.  An exception of a step ends
    the part. *)
Definition scrape_and_save (w : World) (scraper : SkoolScraper) : list Call :=
  Scrape 50 ::
  match scrape_posts (builtin_hash w) scraper (extraction_clock w) 50 with
  | Returned (scraper', scraped) =>
      match scraped with
      | [] => []
      | _ :: _ =>
          let json_path := fst (save_to_json scraper' (json_clock w) None) in
          WriteJson json_path ::
          match write_json w json_path with
          | Py.Raise _ => []
          | Py.Ok _ =>
              let csv_path := fst (save_to_csv scraper' (csv_clock w) None) in
              [WriteCsv csv_path]
          end
      end
  | Raised _ => []
  | OutOfFuel => []
  end.

(** [main]: the calls it makes.  [finally: scraper.close()] quits the
    browser when [setup_driver] has started one. *)
Definition main (w : World) : list Call :=
  let email := getenv w "SKOOL_EMAIL" in
  let password := getenv w "SKOOL_PASSWORD" in
  let community_url := getenv w "COMMUNITY_URL" in
  let headless := headless_mode w in
  match email, password, community_url with
  | Some (String e1 e), Some (String p1 p), Some (String u1 u) =>
      let arguments := chrome_arguments headless in
      StartChrome arguments ::
      match launch_chrome w arguments with
      | Py.Raise _ => []
      | Py.Ok _ =>
          let scraper :=
            {| community_url := String u1 u; headless := headless;
               driver := session w; posts := [] |} in
          (LogIn (String e1 e) (String p1 p) ::
           if login w (String e1 e) (String p1 p)
           then Navigate (String u1 u) ::
                if navigate_to_community w (String u1 u)
                then scrape_and_save w scraper
                else []
           else [])
          ++ [QuitChrome]
      end
  | _, _, _ => []
  end.

(** A world in which everything works and the feed shows [mixed_batch]. *)
Definition fine_world (env : string -> option string) : World :=
  {| getenv := env;
     launch_chrome := fun _ => Py.Ok tt;
     get_login_page := Py.Ok tt;
     await_email_field := Py.Ok tt;
     send_email := fun _ => Py.Ok tt;
     find_password_field := Py.Ok tt;
     send_password := fun _ => Py.Ok tt;
     find_submit_button := Py.Ok tt;
     click_submit := Py.Ok tt;
     await_logged_in := Py.Ok tt;
     get_community_page := fun _ => Py.Ok tt;
     await_feed := Py.Ok tt;
     session := feed_showing mixed_batch;
     builtin_hash := sample_hash;
     extraction_clock := fun _ => sample_now;
     json_clock := sample_now;
     csv_clock := sample_now;
     write_json := fun _ => Py.Ok tt;
     write_csv := fun _ => Py.Ok tt |}.

Definition full_env (name : string) : option string :=
  assoc name [("SKOOL_EMAIL", "ada@example.org");
              ("SKOOL_PASSWORD", "secret");
              ("COMMUNITY_URL", "https://www.skool.com/community");
              ("HEADLESS_MODE", "No")].

(** The same environment without the password. *)
Definition partial_env (name : string) : option string :=
  assoc name [("SKOOL_EMAIL", "ada@example.org");
              ("COMMUNITY_URL", "https://www.skool.com/community")].

(** * Properties *)

(** ** The pagination loader *)

Section Loader.

Variable d : WebDriver.
Variable max_posts : Z.

Lemma loop_body_attempts st :
  List.length (attempts (loop_body d st)) = S (List.length (attempts st)).
Proof.
  unfold loop_body.
  destruct (_ >? _); reflexivity.
Qed.

Lemma loop_body_bound st :
  exists found, post_elements (loop_body d st) = Some found.
Proof.
  unfold loop_body.
  destruct (_ >? _); simpl; eauto.
Qed.

Lemma loop_body_variant st :
  loop_test max_posts st = true ->
  (loop_variant max_posts (loop_body d st) < loop_variant max_posts st)%nat.
Proof.
  unfold loop_test, loop_variant, loop_body, max_scroll_attempts.
  intros H. apply andb_prop in H as [H1 H2].
  apply Z.ltb_lt in H1. apply Z.ltb_lt in H2.
  destruct (Z.gtb_spec (Z.of_nat (List.length
             (find_elements d (List.length (attempts st))))) (posts_loaded st));
    cbn [posts_loaded scroll_attempts]; lia.
Qed.

Lemma scroll_loop_terminates fuel st :
  (loop_variant max_posts st <= fuel)%nat ->
  exists st', scroll_loop d max_posts fuel st = Some st'.
Proof.
  revert st. induction fuel as [|fuel IH]; intros st Hle; simpl.
  - destruct (loop_test max_posts st) eqn:Ht; [|eauto].
    apply loop_body_variant in Ht. lia.
  - destruct (loop_test max_posts st) eqn:Ht; [|eauto].
    apply IH. apply loop_body_variant in Ht. lia.
Qed.

Lemma scroll_loop_passes fuel st st' :
  scroll_loop d max_posts fuel st = Some st' ->
  exists n,
    st' = Nat.iter n (loop_body d) st
    /\ loop_test max_posts st' = false
    /\ forall k, (k < n)%nat ->
         loop_test max_posts (Nat.iter k (loop_body d) st) = true.
Proof.
  revert st. induction fuel as [|fuel IH]; intros st; simpl;
    destruct (loop_test max_posts st) eqn:Ht; try discriminate.
  - intros [= <-]. exists O. repeat split; auto. intros k Hk. lia.
  - intros H. apply IH in H as (n & Heq & Hstop & Hgo).
    exists (S n). rewrite Nat.iter_succ_r. repeat split; auto.
    intros [|k] Hk; [exact Ht|].
    rewrite Nat.iter_succ_r. apply Hgo. lia.
  - intros [= <-]. exists O. repeat split; auto. intros k Hk. lia.
Qed.

Lemma after_passes_attempts k :
  List.length (attempts (after_passes d k)) = k.
Proof.
  induction k as [|k IH]; [reflexivity|].
  unfold after_passes in *. simpl. rewrite loop_body_attempts, IH. reflexivity.
Qed.

Lemma loop_body_stall_count st :
  scroll_attempts st = stall_count (attempts st) ->
  scroll_attempts (loop_body d st) = stall_count (attempts (loop_body d st)).
Proof.
  unfold loop_body. intros H.
  destruct (_ >? _); cbn [scroll_attempts attempts stall_count]; lia.
Qed.

Lemma after_passes_stall_count k :
  scroll_attempts (after_passes d k) = stall_count (attempts (after_passes d k)).
Proof.
  induction k as [|k IH]; [reflexivity|].
  unfold after_passes in *. simpl. now apply loop_body_stall_count.
Qed.

Lemma scroll_run_returns :
  exists st, scroll_run d max_posts = Some st.
Proof.
  unfold scroll_run. apply scroll_loop_terminates. lia.
Qed.

End Loader.

Section LoaderClaims.

Variable self : SkoolScraper.

Lemma scroll_loop_after_passes max_posts n fuel st :
  (n <= fuel)%nat ->
  (forall k, (k < n)%nat ->
     loop_test max_posts (Nat.iter k (loop_body (driver self)) st) = true) ->
  loop_test max_posts (Nat.iter n (loop_body (driver self)) st) = false ->
  scroll_loop (driver self) max_posts fuel st
  = Some (Nat.iter n (loop_body (driver self)) st).
Proof.
  revert fuel st. induction n as [|n IH]; intros fuel st Hle Hgo Hstop.
  - simpl in Hstop. destruct fuel; simpl; rewrite Hstop; reflexivity.
  - destruct fuel as [|fuel]; [lia|]. simpl scroll_loop.
    pose proof (Hgo O ltac:(lia)) as H0. simpl in H0. rewrite H0.
    rewrite Nat.iter_succ_r.
    apply IH; [lia| |now rewrite <- Nat.iter_succ_r].
    intros k Hk. rewrite <- Nat.iter_succ_r. apply Hgo. lia.
Qed.

Lemma scroll_run_after_passes max_posts n :
  (n <= loop_variant max_posts loop_init)%nat ->
  (forall k, (k < n)%nat ->
     loop_test max_posts (after_passes (driver self) k) = true) ->
  loop_test max_posts (after_passes (driver self) n) = false ->
  scroll_run (driver self) max_posts = Some (after_passes (driver self) n).
Proof.
  intros Hle Hgo Hstop. unfold scroll_run, after_passes.
  now apply scroll_loop_after_passes.
Qed.

(** C10. Called with a maximum of zero or less, the loader makes no pass
    through its loop body (the run ends in the state before the loop), and
    the final slice reads [post_elements], which nothing has bound: the call
    raises [UnboundLocalError] and returns no list. *)
Theorem scroll_and_load_posts_nonpositive_max (max_posts : Z) :
  max_posts <= 0 ->
  scroll_run (driver self) max_posts = Some loop_init
  /\ scroll_and_load_posts self max_posts = Raised Py.UnboundLocalError.
Proof.
  intros Hmax.
  assert (Hrun : scroll_run (driver self) max_posts = Some loop_init).
  { unfold scroll_run.
    apply (scroll_loop_after_passes max_posts O); [lia| intros k Hk; lia |].
    unfold loop_test. cbn [Nat.iter nat_rect loop_init posts_loaded].
    apply andb_false_intro1. apply Z.ltb_ge. lia. }
  split; [exact Hrun|].
  unfold scroll_and_load_posts. rewrite Hrun. reflexivity.
Qed.

(** C5. Called with a maximum of at least one, the loader returns a list,
    and the list has at most that many elements. *)
Theorem scroll_and_load_posts_at_most_max (max_posts : Z) :
  1 <= max_posts ->
  exists elements,
    scroll_and_load_posts self max_posts = Returned elements
    /\ Z.of_nat (List.length elements) <= max_posts.
Proof.
  intros Hmax. unfold scroll_and_load_posts.
  destruct (scroll_run_returns (driver self) max_posts) as [st Hrun].
  rewrite Hrun. unfold scroll_run in Hrun.
  apply scroll_loop_passes in Hrun as (n & Heq & Hstop & _).
  destruct n as [|n].
  - simpl in Heq. subst st. unfold loop_test in Hstop. simpl in Hstop.
    apply andb_false_iff in Hstop as [H|H]; [apply Z.ltb_ge in H; lia|discriminate].
  - simpl in Heq.
    destruct (loop_body_bound (driver self)
                (Nat.iter n (loop_body (driver self)) loop_init)) as [found Hf].
    rewrite <- Heq in Hf. unfold loop_return. rewrite Hf.
    eexists; split; [reflexivity|].
    unfold Py.list_slice_to.
    destruct (Z.ltb_spec max_posts 0); [lia|].
    pose proof (firstn_le_length (Z.to_nat max_posts) found). lia.
Qed.

Lemma steady_after_passes (k : nat) :
  (forall j, List.length (find_elements (driver self) j) = 30%nat) ->
  after_passes (driver self) (S k)
  = {| posts_loaded := 30; scroll_attempts := Z.of_nat k;
       post_elements := Some (find_elements (driver self) k);
       attempts := (repeat Stall k ++ [Growth 30])%list |}.
Proof.
  intros Hlen. induction k as [|k IH].
  - unfold after_passes. simpl. unfold loop_body. simpl.
    rewrite Hlen. reflexivity.
  - unfold after_passes in *. rewrite Nat.iter_succ, IH.
    unfold loop_body. cbn [attempts posts_loaded scroll_attempts].
    rewrite length_app, repeat_length, Nat.add_1_r, Hlen.
    change (Z.of_nat 30 >? 30) with false. cbv iota.
    f_equal. lia.
Qed.

(** C6. Against a feed that shows thirty elements at every poll, a call with
    a maximum of 50 ends after one pass that grows the count to thirty and
    exactly ten passes that bring nothing, and returns the thirty elements
    of the last poll. *)
Theorem scroll_and_load_posts_steady_thirty :
  (forall k, List.length (find_elements (driver self) k) = 30%nat) ->
  exists st,
    scroll_run (driver self) 50 = Some st
    /\ attempts st = (repeat Stall 10 ++ [Growth 30])%list
    /\ scroll_attempts st = 10
    /\ stall_count (attempts st) = 10
    /\ scroll_and_load_posts self 50 = Returned (find_elements (driver self) 10)
    /\ List.length (find_elements (driver self) 10) = 30%nat.
Proof.
  intros Hlen.
  assert (Hrun : scroll_run (driver self) 50
                 = Some (after_passes (driver self) 11)).
  { apply scroll_run_after_passes.
    - unfold loop_variant, max_scroll_attempts, loop_init.
      cbn [posts_loaded scroll_attempts]. lia.
    - intros [|k] Hk; [reflexivity|].
      rewrite steady_after_passes by exact Hlen.
      unfold loop_test, max_scroll_attempts. cbn [posts_loaded scroll_attempts].
      apply andb_true_intro. split; [reflexivity|apply Z.ltb_lt; lia].
    - rewrite steady_after_passes by exact Hlen. reflexivity. }
  exists (after_passes (driver self) 11).
  split; [exact Hrun|].
  unfold scroll_and_load_posts. rewrite Hrun.
  rewrite steady_after_passes by exact Hlen.
  repeat split; try reflexivity; try apply Hlen.
  unfold loop_return, Py.list_slice_to. cbn [post_elements].
  change (50 <? 0) with false. cbv iota.
  rewrite firstn_all2; [reflexivity|]. rewrite Hlen. vm_compute. lia.
Qed.

(** C1, amended. The loop makes a pass exactly while the loaded count is
    below the maximum and the number of no-growth passes made since the call
    began is below ten: the run ends, in the first state after [k] passes
    (k = 0, 1, ...) in which that test fails, and the counter the test reads
    is at every point the number of all no-growth passes made so far, which
    a pass that grows the count leaves as it is. *)
Theorem scroll_loop_runs_while_test (max_posts : Z) :
  exists st,
    scroll_run (driver self) max_posts = Some st
    /\ st = after_passes (driver self) (List.length (attempts st))
    /\ loop_test max_posts st = false
    /\ (forall k, (k < List.length (attempts st))%nat ->
          loop_test max_posts (after_passes (driver self) k) = true)
    /\ (forall k,
          scroll_attempts (after_passes (driver self) k)
          = stall_count (attempts (after_passes (driver self) k))).
Proof.
  destruct (scroll_run_returns (driver self) max_posts) as [st Hrun].
  exists st. split; [exact Hrun|].
  unfold scroll_run in Hrun.
  apply scroll_loop_passes in Hrun as (n & Heq & Hstop & Hgo).
  fold (after_passes (driver self) n) in Heq.
  assert (Hn : List.length (attempts st) = n)
    by (rewrite Heq; apply after_passes_attempts).
  rewrite Hn. repeat split; auto.
  intros k. apply after_passes_stall_count.
Qed.

End LoaderClaims.

(** C1, as stated, fails on [stuttering_feed] with a maximum of 50: five
    no-growth passes, a growth, five more no-growth passes.  The run ends
    with two elements loaded and a streak of five, where the test of the
    claim still holds. *)
Lemma stuttering_feed_stops_within_streak :
  option_map
    (fun st => (posts_loaded st, scroll_attempts st,
                stall_streak (attempts st), loop_test_consecutive 50 st))
    (scroll_run stuttering_feed 50)
  = Some (2, 10, 5, true).
Proof. vm_compute. reflexivity. Qed.

Lemma scroll_and_load_posts_nonpositive_max_witness :
  0 <= 0
  /\ scroll_run (driver (scraper_on steady_feed)) 0 = Some loop_init
  /\ scroll_and_load_posts (scraper_on steady_feed) 0
     = Raised Py.UnboundLocalError.
Proof.
  split; [lia|].
  apply (scroll_and_load_posts_nonpositive_max (scraper_on steady_feed) 0).
  lia.
Defined.

Lemma scroll_and_load_posts_at_most_max_witness :
  1 <= 7
  /\ exists elements,
       scroll_and_load_posts (scraper_on steady_feed) 7 = Returned elements
       /\ Z.of_nat (List.length elements) <= 7.
Proof.
  split; [lia|].
  apply (scroll_and_load_posts_at_most_max (scraper_on steady_feed) 7).
  lia.
Defined.

Lemma scroll_and_load_posts_steady_thirty_witness :
  (forall k, List.length (find_elements (driver (scraper_on steady_feed)) k)
             = 30%nat)
  /\ exists st,
       scroll_run (driver (scraper_on steady_feed)) 50 = Some st
       /\ attempts st = (repeat Stall 10 ++ [Growth 30])%list
       /\ scroll_attempts st = 10
       /\ stall_count (attempts st) = 10
       /\ scroll_and_load_posts (scraper_on steady_feed) 50
          = Returned (find_elements (driver (scraper_on steady_feed)) 10)
       /\ List.length (find_elements (driver (scraper_on steady_feed)) 10)
          = 30%nat.
Proof.
  split; [intros k; reflexivity|].
  apply (scroll_and_load_posts_steady_thirty (scraper_on steady_feed)).
  intros k. reflexivity.
Defined.

(** ** The field extractor *)

(** The decimal writing of an integer: how many characters [str] gives. *)

Lemma string_of_uint_length d :
  String.length (NilEmpty.string_of_uint d) = Decimal.nb_digits d.
Proof. induction d; simpl; congruence. Qed.

Lemma to_uint_single p :
  (Decimal.nb_digits (Pos.to_uint p) <= 1)%nat <-> (p <= 9)%positive.
Proof.
  split.
  - intros Hn. pose proof (Unsigned.of_to p) as Hp.
    destruct (Pos.to_uint p) as [|d|d|d|d|d|d|d|d|d|d];
      try (destruct d; simpl in Hn; try lia);
      vm_compute in Hp; try discriminate; injection Hp as <-; lia.
  - intros Hp.
    assert (H : (p = 1 \/ p = 2 \/ p = 3 \/ p = 4 \/ p = 5 \/ p = 6 \/ p = 7
                 \/ p = 8 \/ p = 9)%positive) by lia.
    repeat (destruct H as [->|H]; [vm_compute; lia|]).
    subst p. vm_compute. lia.
Qed.

Lemma str_slice_tail_empty s :
  Py.str_slice 1 10 s = "" <-> (String.length s <= 1)%nat.
Proof.
  unfold Py.str_slice. destruct s as [|c [|c' s']]; simpl; split; intros H;
    try reflexivity; try lia; try discriminate.
Qed.

Lemma str_length_pos p :
  String.length (Py.str (Z.pos p)) = Decimal.nb_digits (Pos.to_uint p).
Proof.
  unfold Py.str. simpl. unfold NilZero.string_of_uint.
  pose proof (Unsigned.to_uint_nonnil p) as Hnil.
  destruct (Pos.to_uint p) eqn:E; try congruence;
    rewrite <- E, string_of_uint_length; reflexivity.
Qed.

Lemma str_length_neg p :
  String.length (Py.str (Z.neg p)) = S (Decimal.nb_digits (Pos.to_uint p)).
Proof.
  unfold Py.str. simpl. unfold NilZero.string_of_uint.
  pose proof (Unsigned.to_uint_nonnil p) as Hnil.
  destruct (Pos.to_uint p) eqn:E; try congruence;
    rewrite <- E, string_of_uint_length; reflexivity.
Qed.

(** Characters 1 to 9 of [str(h)] are no characters at all exactly when [h]
    is a single digit. *)
Lemma hash_slice_empty (h : Z) :
  Py.str_slice 1 10 (Py.str h) = "" <-> 0 <= h <= 9.
Proof.
  rewrite str_slice_tail_empty. destruct h as [|p|p].
  - vm_compute. split; intros _; [split; discriminate|].
    apply le_n.
  - rewrite str_length_pos, to_uint_single. lia.
  - rewrite str_length_neg.
    pose proof (Unsigned.to_uint_nonnil p) as Hnil.
    destruct (Pos.to_uint p); try congruence; simpl; lia.
Qed.

Lemma bind_Ok {A B : Type} (c : Py.result A) (k : A -> Py.result B) (b : B) :
  Py.bind c k = Py.Ok b -> exists a, c = Py.Ok a /\ k a = Py.Ok b.
Proof. destruct c as [a|e]; simpl; [eauto|discriminate]. Qed.

Ltac bind_inv H :=
  let a := fresh "v" in
  let Ha := fresh "Hv" in
  apply bind_Ok in H as (a & Ha & H).

(** A loop over selectors that all find nothing leaves its variable as it
    was. *)
Lemma first_match_nothing_found {A : Type} (attempt : string -> Py.result A)
  (selectors : list string) (current : A) :
  (forall selector, In selector selectors ->
     attempt selector = Py.Raise Py.NoSuchElementException) ->
  first_match Py.is_NoSuchElement attempt selectors current = Py.Ok current.
Proof.
  induction selectors as [|selector rest IH]; intros H; simpl; [reflexivity|].
  rewrite (H selector) by (left; reflexivity). simpl.
  apply IH. intros s Hs. apply H. right. exact Hs.
Qed.







Lemma substring_prefix_length n s :
  (n <= String.length s)%nat -> String.length (substring 0 n s) = n.
Proof.
  revert s. induction n as [|n IH]; intros [|c s] H; simpl in *;
    try reflexivity; try lia.
  rewrite IH; [reflexivity|lia].
Qed.

Lemma first_match_ext {A : Type} (catches : Py.Exception -> bool)
  (attempt attempt' : string -> Py.result A) (selectors : list string)
  (current : A) :
  (forall selector, In selector selectors ->
     attempt' selector = attempt selector) ->
  first_match catches attempt' selectors current
  = first_match catches attempt selectors current.
Proof.
  induction selectors as [|selector rest IH]; intros H; simpl; [reflexivity|].
  rewrite (H selector) by (left; reflexivity).
  rewrite IH; [reflexivity|]. intros s Hs. apply H. right. exact Hs.
Qed.

(** No selector of another field is a time selector. *)
Lemma other_selectors_not_time selector :
  In selector (title_selectors ++ content_selectors ++ author_selectors
               ++ like_selectors ++ comment_selectors ++ ["a"]) ->
  ~ In selector time_selectors.
Proof.
  intros Hin Htime. simpl in Hin.
  repeat (destruct Hin as [<-|Hin];
          [simpl in Htime; intuition discriminate|]).
  destruct Hin.
Qed.

Lemma first_match_first_found {A : Type} (catches : Py.Exception -> bool)
  (attempt : string -> Py.result A) (before : list string) (selector : string)
  (after : list string) (current v : A) :
  (forall s, In s before ->
     exists e, attempt s = Py.Raise e /\ catches e = true) ->
  attempt selector = Py.Ok v ->
  first_match catches attempt (before ++ selector :: after) current = Py.Ok v.
Proof.
  intros Hbefore Hfound. induction before as [|s before IH]; simpl.
  - now rewrite Hfound.
  - destruct (Hbefore s (or_introl eq_refl)) as (e & -> & ->).
    apply IH. intros s' Hs'. apply Hbefore. right. exact Hs'.
Qed.

Lemma space_not_digit c : Py.isspace c = true -> Py.isdigit c = false.
Proof.
  destruct c as [[] [] [] [] [] [] [] []]; vm_compute;
    intros H; try reflexivity; discriminate.
Qed.

Lemma filter_join_lstrip_eq p s :
  (forall c, Py.isspace c = true -> p c = false) ->
  Py.filter_join p (Py.lstrip s) = Py.filter_join p s.
Proof.
  intros Hp. induction s as [|c s IH]; simpl; [reflexivity|].
  destruct (Py.isspace c) eqn:Hc; [|reflexivity].
  now rewrite (Hp c Hc).
Qed.

Lemma filter_join_rstrip_eq p s :
  (forall c, Py.isspace c = true -> p c = false) ->
  Py.filter_join p (Py.rstrip s) = Py.filter_join p s.
Proof.
  intros Hp. induction s as [|c s IH]; [reflexivity|].
  cbn [Py.rstrip]. destruct (Py.rstrip s) as [|c' t].
  - cbn [Py.filter_join] in *. rewrite <- IH.
    destruct (Py.isspace c) eqn:Hc.
    + now rewrite (Hp c Hc).
    + cbn [Py.filter_join]. reflexivity.
  - change (Py.filter_join p (String c (String c' t)))
      with (if p c then String c (Py.filter_join p (String c' t))
            else Py.filter_join p (String c' t)).
    rewrite IH. reflexivity.
Qed.

Lemma filter_join_strip_eq s :
  Py.filter_join Py.isdigit (Py.strip s) = Py.filter_join Py.isdigit s.
Proof.
  unfold Py.strip.
  rewrite filter_join_rstrip_eq, filter_join_lstrip_eq;
    auto using space_not_digit.
Qed.


Section ExtractorClaims.

Variable hash : option string -> Z.
Variable self : SkoolScraper.

(** What a successful extraction has computed, field by field. *)
Lemma extract_post_data_fields now post_element post :
  extract_post_data hash self now post_element = Some post ->
  exists title,
    post_id_of hash post_element = Py.Ok (Post.id post)
    /\ first_match Py.is_NoSuchElement (stripped_text post_element)
         title_selectors "" = Py.Ok title
    /\ first_match Py.is_NoSuchElement (stripped_text post_element)
         content_selectors "" = Py.Ok (Post.content post)
    /\ Post.title post
       = (if negb (Py.truthy (Some title))
             && Py.truthy (Some (Post.content post))
          then title_from_content (Post.content post) else title)
    /\ first_match Py.is_NoSuchElement (stripped_text post_element)
         author_selectors "Unknown" = Py.Ok (Post.author post)
    /\ Post.timestamp post = now
    /\ count_from like_selectors post_element = Py.Ok (Post.likes post)
    /\ count_from comment_selectors post_element
       = Py.Ok (Post.comments_count post)
    /\ post_url_of (current_url (driver self)) post_element
       = Py.Ok (Post.url post)
    /\ Post.category post = ""
    /\ Post.comments post = [].
Proof.
  unfold extract_post_data.
  destruct (extract_post_data_try hash now (current_url (driver self))
              post_element) as [p|e] eqn:H; [|discriminate].
  intros [= <-]. unfold extract_post_data_try in H.
  do 8 bind_inv H. injection H as <-.
  exists v0. cbn [Post.id Post.title Post.content Post.author Post.timestamp
                  Post.likes Post.comments_count Post.url Post.category
                  Post.comments].
  repeat split; assumption.
Qed.

(** X21. The identifier of an extracted post is the [data-post-id]
    attribute when that is a non-empty string, else the [id] attribute when
    that is a non-empty string, else characters 1 to 9 of the decimal
    writing of the hash of the raw markup.  In the first two cases it is not
    empty; in the last it is empty exactly when the hash is one of 0..9. *)
Theorem post_id_fallback_chain now post_element post :
  extract_post_data hash self now post_element = Some post ->
  (exists a,
     get_attribute post_element "data-post-id" = Py.Ok (Some a)
     /\ a <> "" /\ Post.id post = a)
  \/ (exists a b,
        get_attribute post_element "data-post-id" = Py.Ok a
        /\ Py.truthy a = false
        /\ get_attribute post_element "id" = Py.Ok (Some b)
        /\ b <> "" /\ Post.id post = b)
  \/ (exists a b h,
        get_attribute post_element "data-post-id" = Py.Ok a
        /\ Py.truthy a = false
        /\ get_attribute post_element "id" = Py.Ok b
        /\ Py.truthy b = false
        /\ get_attribute post_element "outerHTML" = Py.Ok h
        /\ Post.id post = Py.str_slice 1 10 (Py.str (hash h))
        /\ (Post.id post = "" <-> 0 <= hash h <= 9)).
Proof.
  intros Hex. apply extract_post_data_fields in Hex as (_ & Hid & _).
  unfold post_id_of in Hid. bind_inv Hid.
  destruct v as [[|c s]|].
  2: { left. exists (String c s). injection Hid as <-.
       repeat split; [exact Hv|discriminate]. }
  all: bind_inv Hid; destruct v as [[|c' s']|].
  2, 5: right; left; injection Hid as <-; eexists _, (String c' s');
    repeat split; eauto; discriminate.
  all: bind_inv Hid; injection Hid as Hid; right; right;
    eexists _, _, v;
    (split; [exact Hv|]); (split; [reflexivity|]);
    (split; [exact Hv0|]); (split; [reflexivity|]);
    (split; [exact Hv1|]); (split; [symmetry; exact Hid|]);
    rewrite <- Hid; apply hash_slice_empty.
Qed.


(** C4. When no title selector finds an element, the title of the extracted
    post is the first 100 characters of its content followed by ["..."]
    when the content has more than 100 characters, the content itself when
    it has between 1 and 100, and empty when the content is empty. *)
Theorem title_falls_back_to_content now post_element post :
  (forall selector, In selector title_selectors ->
     find_element post_element selector
     = Py.Raise Py.NoSuchElementException) ->
  extract_post_data hash self now post_element = Some post ->
  (Py.len (Post.content post) > 100 ->
     Post.title post = Py.str_slice 0 100 (Post.content post) ++ "..."
     /\ String.length (Py.str_slice 0 100 (Post.content post)) = 100%nat)
  /\ (Post.content post <> "" -> Py.len (Post.content post) <= 100 ->
      Post.title post = Post.content post)
  /\ (Post.content post = "" -> Post.title post = "").
Proof.
  intros Hmiss Hex.
  apply extract_post_data_fields in Hex as (title & _ & Ht & _ & Htitle & _).
  rewrite first_match_nothing_found in Ht.
  2: { intros selector Hin. unfold stripped_text.
       rewrite (Hmiss selector Hin). reflexivity. }
  injection Ht as <-. rewrite Htitle. clear Htitle.
  unfold title_from_content, Py.len.
  destruct (Post.content post) as [|c s] eqn:Hcontent.
  - split; [|split].
    + simpl. intros H. lia.
    + intros H. congruence.
    + reflexivity.
  - cbn [Py.truthy negb andb].
    destruct (Z.gtb_spec (Z.of_nat (String.length (String c s))) 100)
      as [Hgt|Hle]; (split; [|split]).
    + intros _. split; [reflexivity|].
      unfold Py.str_slice. change (100 - 0)%nat with 100%nat.
      apply substring_prefix_length. lia.
    + intros _ H. lia.
    + discriminate.
    + intros H. lia.
    + reflexivity.
    + discriminate.
Qed.

(** C7. The timestamp of an extracted post is what the clock answered
    during the extraction; and an element that differs from the post
    element only in what the time selectors find is extracted, when it is,
    to the very same post: what a time element says is read and dropped. *)
Theorem timestamp_is_capture_instant now post_element post :
  extract_post_data hash self now post_element = Some post ->
  Post.timestamp post = now
  /\ forall other post',
       same_but_time post_element other ->
       extract_post_data hash self now other = Some post' ->
       post' = post.
Proof.
  intros Hex. pose proof Hex as Hfields.
  apply extract_post_data_fields in Hfields
    as (title & Hid & Ht & Hc & Htitle & Ha & Hts & Hl & Hcc & Hurl & Hcat
        & Hcs).
  split; [exact Hts|].
  intros other post' [Hattr Hfind] Hex'.
  apply extract_post_data_fields in Hex'
    as (title' & Hid' & Ht' & Hc' & Htitle' & Ha' & Hts' & Hl' & Hcc' & Hurl'
        & Hcat' & Hcs').
  assert (Hsel : forall selector,
            In selector (title_selectors ++ content_selectors
                         ++ author_selectors ++ like_selectors
                         ++ comment_selectors ++ ["a"]) ->
            find_element other selector = find_element post_element selector)
    by (intros selector Hin; apply Hfind, other_selectors_not_time, Hin).
  assert (Hstripped : forall selector,
            In selector (title_selectors ++ content_selectors
                         ++ author_selectors) ->
            stripped_text other selector = stripped_text post_element selector).
  { intros selector Hin. unfold stripped_text. rewrite Hsel; [reflexivity|].
    rewrite !in_app_iff in *. tauto. }
  assert (Hcount : forall selector,
            In selector (like_selectors ++ comment_selectors) ->
            count_of other selector = count_of post_element selector).
  { intros selector Hin. unfold count_of. rewrite Hsel; [reflexivity|].
    rewrite !in_app_iff in *. tauto. }
  unfold post_id_of in Hid'. rewrite !Hattr in Hid'. fold (post_id_of hash post_element) in Hid'.
  rewrite (first_match_ext _ (stripped_text post_element)) in Ht', Hc', Ha'
    by (intros selector Hin; apply Hstripped; rewrite !in_app_iff; tauto).
  unfold count_from in Hl', Hcc'.
  rewrite (first_match_ext _ (count_of post_element)) in Hl', Hcc'
    by (intros selector Hin; apply Hcount; rewrite !in_app_iff; tauto).
  fold (count_from like_selectors post_element) in Hl'.
  fold (count_from comment_selectors post_element) in Hcc'.
  unfold post_url_of in Hurl'. rewrite Hsel in Hurl'
    by (rewrite !in_app_iff; simpl; tauto).
  fold (post_url_of (current_url (driver self)) post_element) in Hurl'.
  assert (Etitle : title' = title) by congruence. subst title'.
  destruct post as [i1 t1 c1 a1 ts1 l1 cc1 u1 cat1 cs1].
  destruct post' as [i2 t2 c2 a2 ts2 l2 cc2 u2 cat2 cs2].
  cbn [Post.id Post.title Post.content Post.author Post.timestamp Post.likes
       Post.comments_count Post.url Post.category Post.comments] in *.
  rewrite Hid in Hid'. rewrite Hc in Hc'. rewrite Ha in Ha'.
  rewrite Hl in Hl'. rewrite Hcc in Hcc'. rewrite Hurl in Hurl'.
  injection Hid' as <-. injection Hc' as <-. injection Ha' as <-.
  injection Hl' as <-. injection Hcc' as <-. injection Hurl' as <-.
  subst. reflexivity.
Qed.

Lemma extract_each_appends clock i elements scraped_posts :
  extract_each hash self clock i elements scraped_posts
  = (scraped_posts ++ non_null (results_from hash self clock i elements))%list.
Proof.
  revert i scraped_posts.
  induction elements as [|post_element rest IH]; intros i scraped_posts; simpl.
  - now rewrite app_nil_r.
  - destruct (extract_post_data hash self (clock i) post_element) as [post|].
    + rewrite IH, <- app_assoc. reflexivity.
    + apply IH.
Qed.

Lemma results_from_nth clock i elements j :
  nth_error (results_from hash self clock i elements) j
  = option_map (extract_post_data hash self (clock (i + j)%nat))
      (nth_error elements j).
Proof.
  revert i j. induction elements as [|post_element rest IH]; intros i [|j];
    simpl; try reflexivity.
  - now rewrite Nat.add_0_r.
  - rewrite IH. now rewrite Nat.add_succ_r.
Qed.

Lemma results_from_length clock i elements :
  List.length (results_from hash self clock i elements) = List.length elements.
Proof.
  revert i. induction elements as [|post_element rest IH]; intros i; simpl;
    [reflexivity|]. now rewrite IH.
Qed.

(** C9. Over the elements the loader returned, every element gets its own
    extraction; an extraction that raises gives [None] for its element and
    the loop goes on; the list returned, and stored in [self.posts], is the
    results that are not [None], in the order of the elements. *)
Theorem scrape_posts_keeps_non_null clock max_posts elements :
  scroll_and_load_posts self max_posts = Returned elements ->
  exists self',
    scrape_posts hash self clock max_posts
    = Returned (self', non_null (results_from hash self clock 0 elements))
    /\ posts self' = non_null (results_from hash self clock 0 elements)
    /\ List.length (results_from hash self clock 0 elements) = List.length elements
    /\ (forall i post_element,
          nth_error elements i = Some post_element ->
          nth_error (results_from hash self clock 0 elements) i
          = Some (extract_post_data hash self (clock i) post_element))
    /\ (forall now post_element e,
          extract_post_data_try hash now (current_url (driver self))
            post_element = Py.Raise e ->
          extract_post_data hash self now post_element = None).
Proof.
  intros Hload. unfold scrape_posts. rewrite Hload.
  rewrite extract_each_appends. cbn [app].
  eexists. split; [reflexivity|]. cbn [posts].
  split; [reflexivity|]. split; [apply results_from_length|]. split.
  - intros i post_element Hi. rewrite results_from_nth, Hi. reflexivity.
  - intros now post_element e He. unfold extract_post_data. now rewrite He.
Qed.

End ExtractorClaims.

(** ** The exporters *)

Lemma json_posts_data_rows todo posts_data :
  json_posts_data todo posts_data = (posts_data ++ List.map row_of todo)%list.
Proof.
  revert posts_data. induction todo as [|post rest IH]; intros posts_data; simpl.
  - now rewrite app_nil_r.
  - rewrite IH, <- app_assoc. reflexivity.
Qed.

Lemma csv_posts_data_rows todo posts_data :
  csv_posts_data todo posts_data = (posts_data ++ List.map row_of todo)%list.
Proof.
  revert posts_data. induction todo as [|post rest IH]; intros posts_data; simpl.
  - now rewrite app_nil_r.
  - rewrite IH, <- app_assoc. reflexivity.
Qed.

Lemma labels_of_rows todo :
  Pandas.labels_of (List.map row_of todo) field_names = field_names.
Proof.
  induction todo as [|post rest IH]; simpl; [reflexivity|]. exact IH.
Qed.

Lemma cells_of_row post :
  List.map (fun label => Pandas.get label (row_of post)) field_names
  = List.map Some (field_values post).
Proof. reflexivity. Qed.

(** C8. The records [save_to_json] hands to [json.dump] and the rows of the
    frame [save_to_csv] writes are, post by post and in the order of
    [self.posts], the same nine values under the same nine names. *)
Theorem json_and_csv_rows_agree (self : SkoolScraper) (now_json now_csv : datetime)
  (json_name csv_name : option string) :
  snd (save_to_json self now_json json_name) = List.map row_of (posts self)
  /\ Pandas.rows (snd (save_to_csv self now_csv csv_name))
     = List.map (fun post => List.map Some (field_values post)) (posts self)
  /\ Pandas.columns (snd (save_to_csv self now_csv csv_name))
     = match posts self with [] => [] | _ => field_names end
  /\ List.length (snd (save_to_json self now_json json_name))
     = List.length (Pandas.rows (snd (save_to_csv self now_csv csv_name))).
Proof.
  unfold save_to_json, save_to_csv. cbn [snd].
  rewrite json_posts_data_rows, csv_posts_data_rows. cbn [app].
  unfold Pandas.of_records. cbn [Pandas.rows Pandas.columns].
  assert (Hlabels : Pandas.labels_of (List.map row_of (posts self)) []
                    = match posts self with [] => [] | _ => field_names end).
  { destruct (posts self) as [|post rest]; [reflexivity|].
    cbn [List.map Pandas.labels_of].
    change (fold_left _ (row_of post) []) with field_names.
    apply labels_of_rows. }
  assert (Hrows : List.map
            (fun d => List.map (fun label => Pandas.get label d)
               (Pandas.labels_of (List.map row_of (posts self)) []))
            (List.map row_of (posts self))
          = List.map (fun post => List.map Some (field_values post))
              (posts self)).
  { rewrite Hlabels. destruct (posts self) as [|post rest]; [reflexivity|].
    rewrite List.map_map. apply List.map_ext. intros p. apply cells_of_row. }
  repeat split.
  - exact Hrows.
  - exact Hlabels.
  - rewrite Hrows. now rewrite !List.length_map.
Qed.

(** ** Sample runs *)


Lemma post_id_fallback_chain_witness :
  exists post,
    extract_post_data sample_hash sample_scraper sample_now untitled_item
    = Some post
    /\ Post.id post = "p-17".
Proof.
  destruct (extract_post_data sample_hash sample_scraper sample_now
              untitled_item) as [post|] eqn:H;
    [|vm_compute in H; discriminate].
  exists post. split; [reflexivity|].
  destruct (post_id_fallback_chain sample_hash sample_scraper sample_now
              untitled_item post H)
    as [(a & Ha & _ & ->) | [(a & b & Ha & Hf & _) | (a & b & h & Ha & Hf & _)]];
    vm_compute in Ha; injection Ha as <-; [reflexivity|discriminate..].
Defined.






Lemma title_falls_back_to_content_witness :
  (forall selector, In selector title_selectors ->
     find_element untitled_item selector = Py.Raise Py.NoSuchElementException)
  /\ exists post,
       extract_post_data sample_hash sample_scraper sample_now untitled_item
       = Some post
       /\ Post.content post = "Hello world"
       /\ Post.title post = "Hello world".
Proof.
  assert (Hmiss : forall selector, In selector title_selectors ->
            find_element untitled_item selector
            = Py.Raise Py.NoSuchElementException).
  { intros selector Hin. simpl in Hin.
    repeat (destruct Hin as [<-|Hin]; [reflexivity|]). destruct Hin. }
  split; [exact Hmiss|].
  destruct (extract_post_data sample_hash sample_scraper sample_now
              untitled_item) as [post|] eqn:H;
    [|vm_compute in H; discriminate].
  exists post. split; [reflexivity|].
  assert (Hcontent : Post.content post = "Hello world")
    by (vm_compute in H; injection H as <-; reflexivity).
  split; [exact Hcontent|].
  destruct (title_falls_back_to_content sample_hash sample_scraper sample_now
              untitled_item post Hmiss H) as (_ & Hshort & _).
  rewrite Hshort; [exact Hcontent| |]; rewrite Hcontent;
    [discriminate|vm_compute; discriminate].
Defined.

Lemma retimed_item_same_but_time : same_but_time timed_item retimed_item.
Proof.
  split; [reflexivity|].
  intros selector Hsel. unfold retimed_item, timed_item, element.
  cbn [find_element assoc].
  destruct (String.eqb_spec "time" selector) as [<-|_]; [|reflexivity].
  exfalso. apply Hsel. simpl. tauto.
Defined.

Lemma timestamp_is_capture_instant_witness :
  exists post,
    extract_post_data sample_hash sample_scraper sample_now timed_item
    = Some post
    /\ Post.timestamp post = sample_now
    /\ extract_post_data sample_hash sample_scraper sample_now retimed_item
       = Some post.
Proof.
  destruct (extract_post_data sample_hash sample_scraper sample_now
              timed_item) as [post|] eqn:H;
    [|vm_compute in H; discriminate].
  exists post. split; [reflexivity|].
  destruct (timestamp_is_capture_instant sample_hash sample_scraper sample_now
              timed_item post H) as [Hnow Hsame].
  split; [exact Hnow|].
  destruct (extract_post_data sample_hash sample_scraper sample_now
              retimed_item) as [post'|] eqn:H';
    [|vm_compute in H'; discriminate].
  f_equal. exact (Hsame retimed_item post' retimed_item_same_but_time H').
Defined.

Lemma scrape_posts_keeps_non_null_witness :
  scroll_and_load_posts mixed_scraper 3 = Returned mixed_batch
  /\ exists self',
       scrape_posts sample_hash mixed_scraper (fun _ => sample_now) 3
       = Returned (self', posts self')
       /\ List.map Post.id (posts self') = ["p-17"; "post-5"].
Proof.
  assert (H : scroll_and_load_posts mixed_scraper 3 = Returned mixed_batch)
    by reflexivity.
  split; [exact H|].
  destruct (scrape_posts_keeps_non_null sample_hash mixed_scraper
              (fun _ => sample_now) 3 mixed_batch H)
    as (self' & Hs & Hp & _).
  exists self'. rewrite Hp. split; [exact Hs|]. reflexivity.
Defined.

(** The examples of the specification. *)

Example likes_text_with_suffix :
  Py.int (Py.filter_join Py.isdigit "1.2k likes") = Py.Ok 12.
Proof. reflexivity. Qed.

Example long_content_is_cut :
  title_from_content
    (String.concat "" (repeat "abcdefghij" 10) ++ "k")
  = String.concat "" (repeat "abcdefghij" 10) ++ "...".
Proof. reflexivity. Qed.

Example isoformat_sample : isoformat sample_now = "2024-03-09T14:05:07.000120".
Proof. reflexivity. Qed.

(** * Further properties *)

(** ** The pagination loader *)

Section LoaderMore.

Variable self : SkoolScraper.

Lemma scroll_loop_passes_within_fuel max_posts fuel st st' :
  scroll_loop (driver self) max_posts fuel st = Some st' ->
  (List.length (attempts st') <= List.length (attempts st) + fuel)%nat.
Proof.
  revert st. induction fuel as [|fuel IH]; intros st; simpl;
    destruct (loop_test max_posts st); try discriminate.
  - intros [= <-]. lia.
  - intros H. apply IH in H. rewrite loop_body_attempts in H. lia.
  - intros [= <-]. lia.
Qed.

Lemma scroll_loop_attempts_bound max_posts fuel st st' :
  0 <= scroll_attempts st <= max_scroll_attempts ->
  scroll_loop (driver self) max_posts fuel st = Some st' ->
  0 <= scroll_attempts st' <= max_scroll_attempts.
Proof.
  revert st. induction fuel as [|fuel IH]; intros st Hst; simpl;
    destruct (loop_test max_posts st) eqn:Ht; try discriminate.
  - now intros [= <-].
  - apply IH. unfold loop_test in Ht. apply andb_prop in Ht as [_ Ht].
    apply Z.ltb_lt in Ht. unfold loop_body.
    destruct (_ >? _); cbn [scroll_attempts]; lia.
  - now intros [= <-].
Qed.

Lemma scroll_run_is_after_passes max_posts :
  exists st,
    scroll_run (driver self) max_posts = Some st
    /\ st = after_passes (driver self) (List.length (attempts st))
    /\ loop_test max_posts st = false.
Proof.
  destruct (scroll_run_returns (driver self) max_posts) as [st Hrun].
  exists st. split; [exact Hrun|]. unfold scroll_run in Hrun.
  apply scroll_loop_passes in Hrun as (n & Heq & Hstop & _).
  fold (after_passes (driver self) n) in Heq.
  split; [|exact Hstop].
  rewrite Heq at 2. rewrite after_passes_attempts. exact Heq.
Qed.

(** X1. Whatever the feed shows, the loop ends after at most
    [max_posts + 10] passes (ten when [max_posts] is negative); the stall
    counter never exceeds ten; and the loop ends either because the loaded
    count has reached the maximum or because the counter is exactly ten. *)
Theorem scroll_loop_pass_bound (max_posts : Z) :
  exists st,
    scroll_run (driver self) max_posts = Some st
    /\ (List.length (attempts st) <= Z.to_nat max_posts + 10)%nat
    /\ 0 <= scroll_attempts st <= 10
    /\ (max_posts <= posts_loaded st \/ scroll_attempts st = 10).
Proof.
  destruct (scroll_run_returns (driver self) max_posts) as [st Hrun].
  exists st. split; [exact Hrun|]. unfold scroll_run in Hrun.
  pose proof (scroll_loop_passes_within_fuel _ _ _ _ Hrun) as Hn.
  pose proof (scroll_loop_attempts_bound max_posts
                (loop_variant max_posts loop_init) loop_init st) as Hb.
  unfold max_scroll_attempts in Hb. cbn [loop_init scroll_attempts] in Hb.
  specialize (Hb ltac:(lia) Hrun).
  apply scroll_loop_passes in Hrun as (n & _ & Hstop & _).
  split; [|split; [exact Hb|]].
  - unfold loop_variant, max_scroll_attempts in Hn.
    cbn [loop_init posts_loaded scroll_attempts attempts List.length] in Hn.
    rewrite Z.sub_0_r in Hn. change (Z.to_nat (10 - 0)) with 10%nat in Hn. lia.
  - unfold loop_test, max_scroll_attempts in Hstop.
    apply andb_false_iff in Hstop as [H|H]; apply Z.ltb_ge in H; [left|right]; lia.
Qed.

Lemma after_passes_succ k :
  after_passes (driver self) (S k)
  = loop_body (driver self) (after_passes (driver self) k).
Proof. reflexivity. Qed.

Lemma after_passes_max_count k :
  posts_loaded (after_passes (driver self) k) = max_count (driver self) k.
Proof.
  induction k as [|k IH]; [reflexivity|].
  rewrite after_passes_succ. cbn [max_count]. rewrite <- IH.
  unfold loop_body. rewrite after_passes_attempts.
  destruct (Z.gtb_spec
              (Z.of_nat (List.length (find_elements (driver self) k)))
              (posts_loaded (after_passes (driver self) k)));
    cbn [posts_loaded]; lia.
Qed.

(** X2. The count the loader reports at the end, [posts_loaded], is the
    largest number of elements any poll of the call has shown. *)
Theorem posts_loaded_is_largest_poll (max_posts : Z) :
  exists st,
    scroll_run (driver self) max_posts = Some st
    /\ posts_loaded st
       = max_count (driver self) (List.length (attempts st)).
Proof.
  destruct (scroll_run_is_after_passes max_posts) as (st & Hrun & Heq & _).
  exists st. split; [exact Hrun|].
  rewrite Heq at 1. apply after_passes_max_count.
Qed.

Lemma loop_body_post_elements st :
  post_elements (loop_body (driver self) st)
  = Some (find_elements (driver self) (List.length (attempts st))).
Proof. unfold loop_body. destruct (_ >? _); reflexivity. Qed.

Lemma loop_test_init max_posts :
  1 <= max_posts -> loop_test max_posts loop_init = true.
Proof.
  intros H. unfold loop_test, loop_init. cbn [posts_loaded scroll_attempts].
  apply andb_true_intro. split; [apply Z.ltb_lt; lia|reflexivity].
Qed.

(** X3. Called with a maximum of at least one, the loader returns the
    first [max_posts] elements of the list its last poll answered, not of
    the poll that showed the most elements. *)
Theorem scroll_and_load_posts_returns_last_poll (max_posts : Z) :
  1 <= max_posts ->
  exists st n,
    scroll_run (driver self) max_posts = Some st
    /\ List.length (attempts st) = S n
    /\ scroll_and_load_posts self max_posts
       = Returned (firstn (Z.to_nat max_posts) (find_elements (driver self) n)).
Proof.
  intros Hmax.
  destruct (scroll_run_is_after_passes max_posts) as (st & Hrun & Heq & Hstop).
  destruct (List.length (attempts st)) as [|n] eqn:Hlen.
  - exfalso. rewrite Heq in Hstop. change (after_passes (driver self) 0)
      with loop_init in Hstop. rewrite loop_test_init in Hstop by exact Hmax.
    discriminate.
  - exists st, n. split; [exact Hrun|]. split; [exact Hlen|].
    unfold scroll_and_load_posts. rewrite Hrun. unfold loop_return.
    rewrite Heq. rewrite after_passes_succ, loop_body_post_elements.
    rewrite after_passes_attempts. unfold Py.list_slice_to.
    destruct (Z.ltb_spec max_posts 0); [lia|reflexivity].
Qed.

(** X4. When the first poll already shows at least [max_posts] elements
    (and [max_posts] is at least one), the loader makes a single pass and
    returns exactly the first [max_posts] elements of that poll. *)
Theorem scroll_and_load_posts_enough_at_once (max_posts : Z) :
  1 <= max_posts ->
  max_posts <= Z.of_nat (List.length (find_elements (driver self) 0)) ->
  scroll_run (driver self) max_posts = Some (after_passes (driver self) 1)
  /\ List.length (attempts (after_passes (driver self) 1)) = 1%nat
  /\ scroll_and_load_posts self max_posts
     = Returned (firstn (Z.to_nat max_posts) (find_elements (driver self) 0))
  /\ List.length (firstn (Z.to_nat max_posts) (find_elements (driver self) 0))
     = Z.to_nat max_posts.
Proof.
  intros Hmax Hfirst.
  assert (Hone : after_passes (driver self) 1
                 = {| posts_loaded :=
                        Z.of_nat (List.length (find_elements (driver self) 0));
                      scroll_attempts := 0;
                      post_elements := Some (find_elements (driver self) 0);
                      attempts :=
                        [Growth (Z.of_nat
                                   (List.length (find_elements (driver self) 0)))]
                   |}).
  { rewrite after_passes_succ. change (after_passes (driver self) 0) with loop_init.
    unfold loop_body. cbn [loop_init attempts posts_loaded scroll_attempts List.length].
    destruct (Z.gtb_spec (Z.of_nat (List.length (find_elements (driver self) 0))) 0);
      [reflexivity|lia]. }
  assert (Hrun : scroll_run (driver self) max_posts
                 = Some (after_passes (driver self) 1)).
  { apply scroll_run_after_passes.
    - unfold loop_variant, max_scroll_attempts.
      cbn [loop_init posts_loaded scroll_attempts]. lia.
    - intros [|k] Hk; [|lia]. apply loop_test_init. exact Hmax.
    - rewrite Hone. unfold loop_test. cbn [posts_loaded].
      apply andb_false_intro1. apply Z.ltb_ge. lia. }
  split; [exact Hrun|]. split; [rewrite Hone; reflexivity|]. split.
  - unfold scroll_and_load_posts. rewrite Hrun, Hone.
    unfold loop_return, Py.list_slice_to. cbn [post_elements].
    destruct (Z.ltb_spec max_posts 0); [lia|reflexivity].
  - apply firstn_length_le. lia.
Qed.

Lemma empty_after_passes k :
  (forall j, find_elements (driver self) j = []) ->
  after_passes (driver self) (S k)
  = {| posts_loaded := 0; scroll_attempts := Z.of_nat (S k);
       post_elements := Some []; attempts := repeat Stall (S k) |}.
Proof.
  intros Hempty. induction k as [|k IH].
  - rewrite after_passes_succ. change (after_passes (driver self) 0) with loop_init.
    unfold loop_body. rewrite Hempty. reflexivity.
  - rewrite after_passes_succ, IH. unfold loop_body. rewrite Hempty.
    cbn [List.length posts_loaded scroll_attempts attempts].
    change (Z.of_nat 0 >? 0) with false. cbv iota.
    f_equal. lia.
Qed.

(** X5. Against a feed that never shows an element, a call with a maximum
    of at least one makes exactly ten passes, all without growth, and
    returns the empty list: no exception tells an empty feed from a loaded
    one. *)
Theorem scroll_and_load_posts_empty_feed (max_posts : Z) :
  1 <= max_posts ->
  (forall k, find_elements (driver self) k = []) ->
  exists st,
    scroll_run (driver self) max_posts = Some st
    /\ attempts st = repeat Stall 10
    /\ scroll_and_load_posts self max_posts = Returned [].
Proof.
  intros Hmax Hempty.
  assert (Hrun : scroll_run (driver self) max_posts
                 = Some (after_passes (driver self) 10)).
  { apply scroll_run_after_passes.
    - unfold loop_variant, max_scroll_attempts.
      cbn [loop_init posts_loaded scroll_attempts]. lia.
    - intros [|k] Hk; [apply loop_test_init; exact Hmax|].
      rewrite empty_after_passes by exact Hempty.
      unfold loop_test, max_scroll_attempts. cbn [posts_loaded scroll_attempts].
      apply andb_true_intro. split; apply Z.ltb_lt; lia.
    - rewrite empty_after_passes by exact Hempty.
      unfold loop_test. cbn [posts_loaded scroll_attempts].
      apply andb_false_intro2. reflexivity. }
  exists (after_passes (driver self) 10). split; [exact Hrun|].
  unfold scroll_and_load_posts. rewrite Hrun.
  rewrite empty_after_passes by exact Hempty. split; [reflexivity|].
  unfold loop_return, Py.list_slice_to. cbn [post_elements].
  destruct (max_posts <? 0); f_equal; apply firstn_nil.
Qed.

End LoaderMore.

Lemma scroll_and_load_posts_returns_last_poll_witness :
  exists st,
    scroll_run (driver (scraper_on shrinking_feed)) 5 = Some st
    /\ posts_loaded st = 3
    /\ scroll_and_load_posts (scraper_on shrinking_feed) 5
       = Returned [blank_element].
Proof.
  destruct (scroll_and_load_posts_returns_last_poll
              (scraper_on shrinking_feed) 5 ltac:(lia))
    as (st & n & Hrun & Hlen & Hret).
  exists st. split; [exact Hrun|].
  assert (Hst : scroll_run (driver (scraper_on shrinking_feed)) 5
                = Some (after_passes shrinking_feed 11))
    by (vm_compute; reflexivity).
  rewrite Hst in Hrun. injection Hrun as Hst'. subst st.
  split; [reflexivity|].
  assert (Hn : n = 10%nat) by (vm_compute in Hlen; congruence).
  subst n. exact Hret.
Defined.

Lemma scroll_and_load_posts_enough_at_once_witness :
  1 <= 7
  /\ 7 <= Z.of_nat (List.length (find_elements (driver sample_scraper) 0))
  /\ scroll_and_load_posts sample_scraper 7
     = Returned (firstn 7 (find_elements (driver sample_scraper) 0)).
Proof.
  assert (H1 : 1 <= 7) by lia.
  assert (H2 : 7 <= Z.of_nat (List.length
                                (find_elements (driver sample_scraper) 0)))
    by (vm_compute; discriminate).
  split; [exact H1|]. split; [exact H2|].
  exact (proj1 (proj2 (proj2
    (scroll_and_load_posts_enough_at_once sample_scraper 7 H1 H2)))).
Defined.

Lemma scroll_and_load_posts_empty_feed_witness :
  1 <= 50
  /\ (forall k, find_elements (driver (scraper_on empty_feed)) k = [])
  /\ scroll_and_load_posts (scraper_on empty_feed) 50 = Returned [].
Proof.
  assert (H1 : 1 <= 50) by lia.
  assert (H2 : forall k, find_elements (driver (scraper_on empty_feed)) k = [])
    by (intros k; reflexivity).
  split; [exact H1|]. split; [exact H2|].
  destruct (scroll_and_load_posts_empty_feed (scraper_on empty_feed) 50 H1 H2)
    as (st & _ & _ & Hret).
  exact Hret.
Defined.

(** ** The field extractor *)

(** What a loop over selectors ends with is what it started with or what
    one of its attempts gave. *)
Lemma first_match_result {A : Type} (catches : Py.Exception -> bool)
  (attempt : string -> Py.result A) (selectors : list string) (current v : A) :
  first_match catches attempt selectors current = Py.Ok v ->
  v = current
  \/ exists selector, In selector selectors /\ attempt selector = Py.Ok v.
Proof.
  induction selectors as [|s rest IH]; simpl.
  - intros [= <-]. now left.
  - destruct (attempt s) as [v'|e] eqn:Hs.
    + intros [= <-]. right. exists s. split; [now left|exact Hs].
    + destruct (catches e); [|discriminate].
      intros H. apply IH in H as [->|(sel & Hin & Hsel)]; [now left|].
      right. exists sel. split; [now right|exact Hsel].
Qed.

Lemma int_digits_nonneg s acc n :
  0 <= acc -> Py.int_digits acc s = Py.Ok n -> 0 <= n.
Proof.
  revert acc. induction s as [|c s IH]; intros acc Hacc; cbn [Py.int_digits].
  - now intros [= <-].
  - destruct (Py.isdecimal c) eqn:Hc; [|discriminate].
    apply IH. unfold Py.isdecimal in Hc. cbv zeta in Hc.
    apply andb_prop in Hc as [Hc _]. apply Nat.leb_le in Hc.
    lia.
Qed.

Lemma int_nonneg s n : Py.int s = Py.Ok n -> 0 <= n.
Proof.
  unfold Py.int. destruct s; [discriminate|].
  apply int_digits_nonneg. lia.
Qed.

Lemma lstrip_no_leading_space s : starts_with_space (Py.lstrip s) = false.
Proof.
  induction s as [|c s IH]; simpl; [reflexivity|].
  destruct (Py.isspace c) eqn:Hc; [exact IH|exact Hc].
Qed.

Lemma rstrip_no_trailing_space s : ends_with_space (Py.rstrip s) = false.
Proof.
  induction s as [|c s IH]; [reflexivity|].
  cbn [Py.rstrip]. destruct (Py.rstrip s) as [|c' t].
  - destruct (Py.isspace c) eqn:Hc; [reflexivity|exact Hc].
  - exact IH.
Qed.

Lemma rstrip_keeps_leading s :
  starts_with_space s = false -> starts_with_space (Py.rstrip s) = false.
Proof.
  destruct s as [|c s]; [reflexivity|]. simpl. intros Hc.
  destruct (Py.rstrip s); [rewrite Hc|]; exact Hc.
Qed.

Lemma strip_no_edge_space s :
  starts_with_space (Py.strip s) = false
  /\ ends_with_space (Py.strip s) = false.
Proof.
  unfold Py.strip. split.
  - apply rstrip_keeps_leading, lstrip_no_leading_space.
  - apply rstrip_no_trailing_space.
Qed.

Lemma stripped_text_no_edge_space post_element selector v :
  stripped_text post_element selector = Py.Ok v ->
  starts_with_space v = false /\ ends_with_space v = false.
Proof.
  unfold stripped_text. intros H. bind_inv H. bind_inv H.
  injection H as <-. apply strip_no_edge_space.
Qed.

Lemma substring_length_le n m s : (String.length (substring n m s) <= m)%nat.
Proof.
  revert n m. induction s as [|c s IH]; intros [|n] [|m]; simpl; try lia.
  - specialize (IH 0%nat m). lia.
  - apply IH.
  - apply IH.
Qed.

Lemma substring_all_chars p n m s :
  all_chars p s = true -> all_chars p (substring n m s) = true.
Proof.
  revert n m. induction s as [|c s IH]; intros [|n] [|m]; simpl; auto.
  - intros H. apply andb_prop in H as [-> H]. simpl. now apply IH.
  - intros H. apply andb_prop in H as [_ H]. now apply IH.
  - intros H. apply andb_prop in H as [_ H]. now apply IH.
Qed.

Lemma string_of_uint_decimal d :
  all_chars Py.isdecimal (NilEmpty.string_of_uint d) = true.
Proof. induction d; simpl; auto. Qed.

Lemma hash_slice_decimal (h : Z) :
  all_chars Py.isdecimal (Py.str_slice 1 10 (Py.str h)) = true.
Proof.
  unfold Py.str_slice, Py.str. destruct h as [|p|p].
  - reflexivity.
  - apply substring_all_chars. simpl. unfold NilZero.string_of_uint.
    destruct (Pos.to_uint p) eqn:E; try reflexivity;
      rewrite <- E; apply string_of_uint_decimal.
  - simpl. apply substring_all_chars. unfold NilZero.string_of_uint.
    destruct (Pos.to_uint p) eqn:E; try reflexivity;
      rewrite <- E; apply string_of_uint_decimal.
Qed.

Section ExtractorMore.

Variable hash : option string -> Z.
Variable self : SkoolScraper.

(** X6. The content of an extracted post is the stripped text of the
    element found by the first content selector that finds one: the
    selectors after it are not consulted, whatever that text is. *)
Theorem content_is_first_found_text now post_element post
  (before : list string) (selector : string) (after : list string)
  (elem : WebElement) (t : string) :
  content_selectors = (before ++ selector :: after)%list ->
  (forall s, In s before ->
     find_element post_element s = Py.Raise Py.NoSuchElementException) ->
  find_element post_element selector = Py.Ok elem ->
  text elem = Py.Ok t ->
  extract_post_data hash self now post_element = Some post ->
  Post.content post = Py.strip t.
Proof.
  intros Hsel Hbefore Hfound Htext Hex.
  apply extract_post_data_fields in Hex as (_ & _ & _ & Hc & _).
  rewrite Hsel in Hc.
  rewrite (first_match_first_found _ _ before selector after "" (Py.strip t))
    in Hc.
  - now injection Hc as <-.
  - intros s Hs. exists Py.NoSuchElementException. split; [|reflexivity].
    unfold stripped_text. now rewrite (Hbefore s Hs).
  - unfold stripped_text. rewrite Hfound. simpl. now rewrite Htext.
Qed.

(** X7. When no author selector finds an element, the author of the
    extracted post is ["Unknown"]. *)
Theorem author_defaults_to_Unknown now post_element post :
  (forall s, In s author_selectors ->
     find_element post_element s = Py.Raise Py.NoSuchElementException) ->
  extract_post_data hash self now post_element = Some post ->
  Post.author post = "Unknown".
Proof.
  intros Hmiss Hex.
  apply extract_post_data_fields in Hex as (_ & _ & _ & _ & _ & Ha & _).
  rewrite first_match_nothing_found in Ha; [now injection Ha as <-|].
  intros s Hs. unfold stripped_text. now rewrite (Hmiss s Hs).
Qed.

Lemma count_from_nonneg selectors post_element n :
  count_from selectors post_element = Py.Ok n -> 0 <= n.
Proof.
  unfold count_from. intros H.
  apply first_match_result in H as [->|(s & _ & H)]; [lia|].
  unfold count_of in H. do 3 bind_inv H. injection H as <-.
  apply int_nonneg in Hv1. destruct (v1 =? 0); lia.
Qed.

(** X8. The likes and the comment count of an extracted post are never
    negative. *)
Theorem counts_are_never_negative now post_element post :
  extract_post_data hash self now post_element = Some post ->
  0 <= Post.likes post /\ 0 <= Post.comments_count post.
Proof.
  intros Hex.
  apply extract_post_data_fields in Hex
    as (_ & _ & _ & _ & _ & _ & _ & Hl & Hc & _).
  split; eapply count_from_nonneg; eassumption.
Qed.

(** X10. The address of an extracted post is the [href] of the first link
    of the element when that is a string beginning with ["http"], and the
    address of the page in every other case: a [href] that begins
    otherwise, a link without [href], no link at all. *)
Theorem post_url_is_absolute_link_or_page now post_element post :
  extract_post_data hash self now post_element = Some post ->
  ((exists link h,
      find_element post_element "a" = Py.Ok link
      /\ get_attribute link "href" = Py.Ok (Some h)
      /\ Py.startswith "http" h = true
      /\ Post.url post = h)
   \/ Post.url post = current_url (driver self))
  /\ (forall link h,
        find_element post_element "a" = Py.Ok link ->
        get_attribute link "href" = Py.Ok (Some h) ->
        Post.url post
        = if Py.startswith "http" h then h else current_url (driver self))
  /\ (forall link,
        find_element post_element "a" = Py.Ok link ->
        get_attribute link "href" = Py.Ok None ->
        Post.url post = current_url (driver self))
  /\ (find_element post_element "a" = Py.Raise Py.NoSuchElementException ->
      Post.url post = current_url (driver self)).
Proof.
  intros Hex.
  apply extract_post_data_fields in Hex
    as (_ & _ & _ & _ & _ & _ & _ & _ & _ & Hu & _).
  unfold post_url_of in Hu.
  destruct (find_element post_element "a") as [link|e] eqn:Hlink;
    cbn [Py.bind] in Hu.
  - destruct (get_attribute link "href") as [[h|]|e] eqn:Hhref;
      cbn [Py.bind] in Hu.
    + assert (Hh : Py.truthy (Some h) && Py.startswith "http" h
                   = Py.startswith "http" h) by (destruct h; reflexivity).
      rewrite Hh in Hu. injection Hu as Hu.
      split; [|split; [|split]].
      * destruct (Py.startswith "http" h) eqn:Hs; [left|now right].
        now exists link, h.
      * intros link' h' [= <-] Hhref'. rewrite Hhref in Hhref'.
        injection Hhref' as <-. now rewrite Hu.
      * intros link' [= <-] Hhref'. rewrite Hhref in Hhref'. discriminate.
      * discriminate.
    + injection Hu as <-. split; [now right|]. split; [|split].
      * intros link' h' [= <-] Hhref'. rewrite Hhref in Hhref'. discriminate.
      * reflexivity.
      * discriminate.
    + destruct (Py.is_NoSuchElement e); [|discriminate].
      injection Hu as <-. split; [now right|]. split; [|split].
      * intros link' h' [= <-] Hhref'. rewrite Hhref in Hhref'. discriminate.
      * reflexivity.
      * discriminate.
  - destruct (Py.is_NoSuchElement e); [|discriminate].
    injection Hu as <-. split; [now right|]. split; [|split].
    + discriminate.
    + discriminate.
    + reflexivity.
Qed.

(** X11. The content and the author of an extracted post neither begin
    nor end with a whitespace character. *)
Theorem text_fields_are_stripped now post_element post :
  extract_post_data hash self now post_element = Some post ->
  starts_with_space (Post.content post) = false
  /\ ends_with_space (Post.content post) = false
  /\ starts_with_space (Post.author post) = false
  /\ ends_with_space (Post.author post) = false.
Proof.
  intros Hex.
  apply extract_post_data_fields in Hex as (_ & _ & _ & Hc & _ & Ha & _).
  apply first_match_result in Hc as [->|(s & _ & Hc)];
    apply first_match_result in Ha as [->|(s' & _ & Ha)];
    repeat match goal with
    | H : stripped_text _ _ = Py.Ok _ |- _ =>
        apply stripped_text_no_edge_space in H; destruct H
    end;
    repeat split; try assumption; reflexivity.
Qed.

(** X12. When neither [data-post-id] nor [id] is a non-empty string, the
    identifier of the extracted post has at most nine characters, all of
    them decimal digits. *)
Theorem hash_identifier_is_short_and_decimal now post_element post a b :
  get_attribute post_element "data-post-id" = Py.Ok a ->
  Py.truthy a = false ->
  get_attribute post_element "id" = Py.Ok b ->
  Py.truthy b = false ->
  extract_post_data hash self now post_element = Some post ->
  (String.length (Post.id post) <= 9)%nat
  /\ all_chars Py.isdecimal (Post.id post) = true.
Proof.
  intros Ha Hta Hb Htb Hex.
  apply extract_post_data_fields in Hex as (_ & Hid & _).
  unfold post_id_of in Hid. rewrite Ha in Hid. cbn [Py.bind] in Hid.
  assert (Hrest :
    (b' <- get_attribute post_element "id" ;;
     match b' with
     | Some (String c s) => Py.Ok (String c s)
     | _ => h <- get_attribute post_element "outerHTML" ;;
            Py.Ok (Py.str_slice 1 10 (Py.str (hash h)))
     end) = Py.Ok (Post.id post)).
  { destruct a as [[|c s]|]; try exact Hid; discriminate. }
  clear Hid. rewrite Hb in Hrest. cbn [Py.bind] in Hrest.
  assert (Hhash :
    (h <- get_attribute post_element "outerHTML" ;;
     Py.Ok (Py.str_slice 1 10 (Py.str (hash h)))) = Py.Ok (Post.id post)).
  { destruct b as [[|c s]|]; try exact Hrest; discriminate. }
  bind_inv Hhash. injection Hhash as <-. split.
  - unfold Py.str_slice. change (10 - 1)%nat with 9%nat.
    apply substring_length_le.
  - apply hash_slice_decimal.
Qed.

(** X13. When the first title selector that finds an element finds one
    whose stripped text is not empty, that text is the title; when the
    stripped text is empty, the title is derived from the content just as if
    no title element had been found. *)
Theorem title_is_first_found_text_or_content now post_element post
  (before : list string) (selector : string) (after : list string)
  (elem : WebElement) (t : string) :
  title_selectors = (before ++ selector :: after)%list ->
  (forall s, In s before ->
     find_element post_element s = Py.Raise Py.NoSuchElementException) ->
  find_element post_element selector = Py.Ok elem ->
  text elem = Py.Ok t ->
  extract_post_data hash self now post_element = Some post ->
  Post.title post
  = match Py.strip t with
    | EmptyString => title_from_content (Post.content post)
    | stripped => stripped
    end.
Proof.
  intros Hsel Hbefore Hfound Htext Hex.
  apply extract_post_data_fields in Hex as (title & _ & Ht & _ & Htitle & _).
  rewrite Hsel in Ht.
  rewrite (first_match_first_found _ _ before selector after "" (Py.strip t))
    in Ht.
  - injection Ht as <-. rewrite Htitle.
    destruct (Py.strip t) as [|c s]; [|reflexivity].
    destruct (Post.content post); reflexivity.
  - intros s Hs. exists Py.NoSuchElementException. split; [|reflexivity].
    unfold stripped_text. now rewrite (Hbefore s Hs).
  - unfold stripped_text. rewrite Hfound. simpl. now rewrite Htext.
Qed.


End ExtractorMore.

(** X9. The number read from a like or comment element is the one its
    digit characters spell, in order: whitespace, signs, separators and
    unit suffixes are dropped, and a text without a decimal digit is a
    [ValueError]. *)
Theorem count_reads_digit_characters_only (post_element : WebElement)
  (selector : string) (elem : WebElement) (t : string) :
  find_element post_element selector = Py.Ok elem ->
  text elem = Py.Ok t ->
  count_of post_element selector = Py.int (Py.filter_join Py.isdigit t).
Proof.
  intros Hfound Htext. unfold count_of. rewrite Hfound. cbn [Py.bind].
  rewrite Htext. cbn [Py.bind]. rewrite filter_join_strip_eq.
  destruct (Py.int (Py.filter_join Py.isdigit t)) as [n|e]; [|reflexivity].
  cbn [Py.bind]. destruct (Z.eqb_spec n 0) as [->|_]; reflexivity.
Qed.

Lemma content_is_first_found_text_witness :
  exists post,
    extract_post_data sample_hash sample_scraper sample_now untitled_item
    = Some post
    /\ Post.content post = "Hello world".
Proof.
  destruct (extract_post_data sample_hash sample_scraper sample_now
              untitled_item) as [post|] eqn:H;
    [|vm_compute in H; discriminate].
  exists post. split; [reflexivity|].
  rewrite (content_is_first_found_text sample_hash sample_scraper sample_now
             untitled_item post
             [".post-content"; "[data-testid='post-content']";
              ".content-body"; ".post-text"] "p" []
             (element [] " Hello world " []) " Hello world ");
    try reflexivity; [|exact H].
  intros s Hs. simpl in Hs.
  repeat (destruct Hs as [<-|Hs]; [reflexivity|]). destruct Hs.
Defined.

Lemma author_defaults_to_Unknown_witness :
  exists post,
    extract_post_data sample_hash sample_scraper sample_now untitled_item
    = Some post
    /\ Post.author post = "Unknown".
Proof.
  destruct (extract_post_data sample_hash sample_scraper sample_now
              untitled_item) as [post|] eqn:H;
    [|vm_compute in H; discriminate].
  exists post. split; [reflexivity|].
  apply (author_defaults_to_Unknown sample_hash sample_scraper sample_now
           untitled_item post); [|exact H].
  intros s Hs. simpl in Hs.
  repeat (destruct Hs as [<-|Hs]; [reflexivity|]). destruct Hs.
Defined.

Lemma counts_are_never_negative_witness :
  exists post,
    extract_post_data sample_hash sample_scraper sample_now signed_item
    = Some post
    /\ Post.likes post = 12
    /\ 0 <= Post.likes post /\ 0 <= Post.comments_count post.
Proof.
  destruct (extract_post_data sample_hash sample_scraper sample_now
              signed_item) as [post|] eqn:H;
    [|vm_compute in H; discriminate].
  exists post. split; [reflexivity|]. split.
  - vm_compute in H. now injection H as <-.
  - exact (counts_are_never_negative sample_hash sample_scraper sample_now
             signed_item post H).
Defined.

Lemma count_reads_digit_characters_only_witness :
  count_of signed_item ".likes" = Py.Ok 12.
Proof.
  rewrite (count_reads_digit_characters_only signed_item ".likes"
             (element [] "1.2k likes" []) "1.2k likes");
    reflexivity.
Defined.

Lemma post_url_is_absolute_link_or_page_witness :
  (exists post,
     extract_post_data sample_hash sample_scraper sample_now linked_item
     = Some post
     /\ Post.url post = "https://www.skool.com/post/9")
  /\ (exists post,
        extract_post_data sample_hash sample_scraper sample_now signed_item
        = Some post
        /\ Post.url post = "https://www.skool.com/community").
Proof.
  split.
  - destruct (extract_post_data sample_hash sample_scraper sample_now
                linked_item) as [post|] eqn:H;
      [|vm_compute in H; discriminate].
    exists post. split; [reflexivity|].
    destruct (post_url_is_absolute_link_or_page sample_hash sample_scraper
                sample_now linked_item post H) as (_ & Hhref & _).
    exact (Hhref (element [("href", "https://www.skool.com/post/9")] "" [])
             "https://www.skool.com/post/9" eq_refl eq_refl).
  - destruct (extract_post_data sample_hash sample_scraper sample_now
                signed_item) as [post|] eqn:H;
      [|vm_compute in H; discriminate].
    exists post. split; [reflexivity|].
    destruct (post_url_is_absolute_link_or_page sample_hash sample_scraper
                sample_now signed_item post H) as (_ & Hhref & _).
    exact (Hhref (element [("href", "/post/42")] "" []) "/post/42"
             eq_refl eq_refl).
Defined.

Lemma text_fields_are_stripped_witness :
  exists post,
    extract_post_data sample_hash sample_scraper sample_now signed_item
    = Some post
    /\ Post.author post = "Ada L."
    /\ starts_with_space (Post.author post) = false
    /\ ends_with_space (Post.author post) = false.
Proof.
  destruct (extract_post_data sample_hash sample_scraper sample_now
              signed_item) as [post|] eqn:H;
    [|vm_compute in H; discriminate].
  exists post. split; [reflexivity|]. split.
  - vm_compute in H. now injection H as <-.
  - exact (proj2 (proj2 (text_fields_are_stripped sample_hash sample_scraper
                           sample_now signed_item post H))).
Defined.

Lemma hash_identifier_is_short_and_decimal_witness :
  exists post,
    extract_post_data sample_hash sample_scraper sample_now signed_item
    = Some post
    /\ Post.id post = "674407370"
    /\ (String.length (Post.id post) <= 9)%nat
    /\ all_chars Py.isdecimal (Post.id post) = true.
Proof.
  destruct (extract_post_data sample_hash sample_scraper sample_now
              signed_item) as [post|] eqn:H;
    [|vm_compute in H; discriminate].
  exists post. split; [reflexivity|]. split.
  - vm_compute in H. now injection H as <-.
  - apply (hash_identifier_is_short_and_decimal sample_hash sample_scraper
             sample_now signed_item post None None); try reflexivity.
    exact H.
Defined.

Lemma title_is_first_found_text_or_content_witness :
  exists post,
    extract_post_data sample_hash sample_scraper sample_now blank_title_item
    = Some post
    /\ Post.title post = "Hello world".
Proof.
  destruct (extract_post_data sample_hash sample_scraper sample_now
              blank_title_item) as [post|] eqn:H;
    [|vm_compute in H; discriminate].
  exists post. split; [reflexivity|].
  rewrite (title_is_first_found_text_or_content sample_hash sample_scraper
             sample_now blank_title_item post
             [".post-title"; "[data-testid='post-title']"] "h1, h2, h3"
             [".content-title"] (element [] "   " []) "   ");
    try reflexivity; [| |exact H].
  - vm_compute in H. now injection H as <-.
  - intros s Hs. simpl in Hs.
    repeat (destruct Hs as [<-|Hs]; [reflexivity|]). destruct Hs.
Defined.


(** ** The batch *)

Section BatchMore.

Variable hash : option string -> Z.
Variable self : SkoolScraper.

Lemma loader_without_pass max_posts :
  max_posts <= 0 ->
  scroll_and_load_posts self max_posts = Raised Py.UnboundLocalError.
Proof.
  intros Hmax. unfold scroll_and_load_posts.
  rewrite (scroll_run_after_passes self max_posts 0).
  - reflexivity.
  - lia.
  - intros k Hk. lia.
  - unfold loop_test. change (after_passes (driver self) 0) with loop_init.
    cbn [loop_init posts_loaded]. apply andb_false_intro1, Z.ltb_ge. lia.
Qed.

Lemma loader_with_pass max_posts :
  1 <= max_posts ->
  exists elements,
    scroll_and_load_posts self max_posts = Returned elements
    /\ Z.of_nat (List.length elements) <= max_posts.
Proof.
  intros Hmax.
  destruct (scroll_run_is_after_passes self max_posts)
    as (st & Hrun & Heq & Hstop).
  unfold scroll_and_load_posts. rewrite Hrun.
  destruct (List.length (attempts st)) as [|n].
  - rewrite Heq in Hstop. change (after_passes (driver self) 0)
      with loop_init in Hstop.
    rewrite loop_test_init in Hstop by exact Hmax. discriminate.
  - rewrite Heq, after_passes_succ. unfold loop_return.
    rewrite loop_body_post_elements. eexists. split; [reflexivity|].
    unfold Py.list_slice_to. destruct (Z.ltb_spec max_posts 0); [lia|].
    rewrite length_firstn. lia.
Qed.

Lemma non_null_length results :
  (List.length (non_null results) <= List.length results)%nat.
Proof.
  induction results as [|[post|] rest IH]; simpl; lia.
Qed.

(** X15. [scrape_posts] called with a maximum of zero or less raises the
    [UnboundLocalError] of the loader: it returns no list, and [self.posts]
    is not assigned. *)
Theorem scrape_posts_nonpositive_max_raises clock max_posts :
  max_posts <= 0 ->
  scrape_posts hash self clock max_posts = Raised Py.UnboundLocalError.
Proof.
  intros Hmax. unfold scrape_posts.
  now rewrite loader_without_pass.
Qed.

(** X16. [scrape_posts] called with a maximum of at least one returns a
    list of at most that many posts, stores that same list in [self.posts],
    and leaves the other fields of [self] as they were. *)
Theorem scrape_posts_at_most_max clock max_posts :
  1 <= max_posts ->
  exists self' scraped_posts,
    scrape_posts hash self clock max_posts = Returned (self', scraped_posts)
    /\ posts self' = scraped_posts
    /\ Z.of_nat (List.length scraped_posts) <= max_posts
    /\ community_url self' = community_url self
    /\ headless self' = headless self
    /\ driver self' = driver self.
Proof.
  intros Hmax.
  destruct (loader_with_pass max_posts Hmax) as (elements & Hload & Hlen).
  unfold scrape_posts. rewrite Hload. rewrite extract_each_appends.
  cbn [app]. eexists _, _. split; [reflexivity|].
  cbn [posts community_url headless driver]. repeat split.
  pose proof (non_null_length (results_from hash self clock 0 elements)) as H.
  rewrite results_from_length in H. lia.
Qed.

End BatchMore.

Lemma scrape_posts_nonpositive_max_raises_witness :
  0 <= 0
  /\ scrape_posts sample_hash mixed_scraper (fun _ => sample_now) 0
     = Raised Py.UnboundLocalError.
Proof.
  split; [lia|].
  apply (scrape_posts_nonpositive_max_raises sample_hash mixed_scraper). lia.
Defined.

Lemma scrape_posts_at_most_max_witness :
  1 <= 2
  /\ exists self' scraped_posts,
       scrape_posts sample_hash mixed_scraper (fun _ => sample_now) 2
       = Returned (self', scraped_posts)
       /\ posts self' = scraped_posts
       /\ Z.of_nat (List.length scraped_posts) <= 2
       /\ community_url self' = community_url mixed_scraper
       /\ headless self' = headless mixed_scraper
       /\ driver self' = driver mixed_scraper.
Proof.
  split; [lia|].
  apply (scrape_posts_at_most_max sample_hash mixed_scraper). lia.
Defined.

(** ** [main] *)

Section MainMore.

Variable w : World.

Lemma scrape_and_save_calls scraper call :
  In call (scrape_and_save w scraper) ->
  call = Scrape 50
  \/ (exists scraper' post scraped,
        scrape_posts (builtin_hash w) scraper (extraction_clock w) 50
        = Returned (scraper', post :: scraped)
        /\ (call = WriteJson (fst (save_to_json scraper' (json_clock w) None))
            \/ (call = WriteCsv (fst (save_to_csv scraper' (csv_clock w) None))
                /\ write_json w (fst (save_to_json scraper' (json_clock w) None))
                   = Py.Ok tt))).
Proof.
  unfold scrape_and_save. intros [<-|Hin]; [now left|]. right.
  destruct (scrape_posts (builtin_hash w) scraper (extraction_clock w) 50)
    as [[scraper' [|post scraped]]| |]; try contradiction.
  exists scraper', post, scraped. split; [reflexivity|].
  destruct Hin as [<-|Hin]; [now left|]. right.
  destruct (write_json w (fst (save_to_json scraper' (json_clock w) None)))
    as [[]|e]; [|contradiction].
  destruct Hin as [<-|[]]. split; reflexivity.
Qed.

(** What [main] does once the three settings are there. *)
Lemma main_with_settings e1 e p1 p u1 u :
  getenv w "SKOOL_EMAIL" = Some (String e1 e) ->
  getenv w "SKOOL_PASSWORD" = Some (String p1 p) ->
  getenv w "COMMUNITY_URL" = Some (String u1 u) ->
  main w
  = StartChrome (chrome_arguments (headless_mode w)) ::
    match launch_chrome w (chrome_arguments (headless_mode w)) with
    | Py.Raise _ => []
    | Py.Ok _ =>
        (LogIn (String e1 e) (String p1 p) ::
         if login w (String e1 e) (String p1 p)
         then Navigate (String u1 u) ::
              if navigate_to_community w (String u1 u)
              then scrape_and_save w
                     {| community_url := String u1 u;
                        headless := headless_mode w;
                        driver := session w; posts := [] |}
              else []
         else [])
        ++ [QuitChrome]
    end.
Proof. intros He Hp Hu. unfold main. rewrite He, Hp, Hu. reflexivity. Qed.

Lemma truthy_Some o :
  Py.truthy o = true -> exists c s, o = Some (String c s).
Proof. destruct o as [[|c s]|]; try discriminate. eauto. Qed.

(** X17. [main] makes no call at all, not even to start the browser,
    exactly when one of [SKOOL_EMAIL], [SKOOL_PASSWORD] and [COMMUNITY_URL]
    is unset or empty. *)
Theorem main_needs_all_three_settings :
  main w = []
  <-> Py.truthy (getenv w "SKOOL_EMAIL")
      && Py.truthy (getenv w "SKOOL_PASSWORD")
      && Py.truthy (getenv w "COMMUNITY_URL") = false.
Proof.
  unfold main.
  destruct (getenv w "SKOOL_EMAIL") as [[|e1 e]|];
    destruct (getenv w "SKOOL_PASSWORD") as [[|p1 p]|];
    destruct (getenv w "COMMUNITY_URL") as [[|u1 u]|];
    cbn [Py.truthy andb]; split; intros H; try reflexivity; discriminate.
Qed.

(** X18. With the three settings there, [main] first starts Chrome.  When
    Chrome starts, the last call of [main] quits it, whichever step failed
    in between, and no call before the last one does; when Chrome does not
    start, [main] makes no other call. *)
Theorem main_quits_the_browser_it_started :
  Py.truthy (getenv w "SKOOL_EMAIL")
  && Py.truthy (getenv w "SKOOL_PASSWORD")
  && Py.truthy (getenv w "COMMUNITY_URL") = true ->
  match launch_chrome w (chrome_arguments (headless_mode w)) with
  | Py.Ok _ =>
      exists calls,
        main w = (StartChrome (chrome_arguments (headless_mode w)) :: calls
                  ++ [QuitChrome])%list
        /\ ~ In QuitChrome calls
  | Py.Raise _ => main w = [StartChrome (chrome_arguments (headless_mode w))]
  end.
Proof.
  intros H. apply andb_prop in H as [H Hu]. apply andb_prop in H as [He Hp].
  apply truthy_Some in He as (e1 & e & He).
  apply truthy_Some in Hp as (p1 & p & Hp).
  apply truthy_Some in Hu as (u1 & u & Hu).
  rewrite (main_with_settings _ _ _ _ _ _ He Hp Hu).
  destruct (launch_chrome w (chrome_arguments (headless_mode w)));
    [|reflexivity].
  eexists. split; [reflexivity|].
  intros [Hin|Hin]; [discriminate|].
  destruct (login w _ _); [|contradiction].
  destruct Hin as [Hin|Hin]; [discriminate|].
  destruct (navigate_to_community w _); [|contradiction].
  apply scrape_and_save_calls in Hin
    as [Hin|(s' & post & scraped & _ & [Hin|[Hin _]])]; discriminate.
Qed.

(** X19. [main] writes the JSON file only after a login and a navigation
    that succeeded and a scrape that returned at least one post, and it
    writes the CSV file only after the JSON file has been written without
    an exception. *)
Theorem main_saves_only_after_success :
  (forall filepath,
     In (WriteJson filepath) (main w) ->
     exists email password community_url scraper' post scraped,
       getenv w "SKOOL_EMAIL" = Some email
       /\ getenv w "SKOOL_PASSWORD" = Some password
       /\ getenv w "COMMUNITY_URL" = Some community_url
       /\ login w email password = true
       /\ navigate_to_community w community_url = true
       /\ scrape_posts (builtin_hash w)
            {| community_url := community_url; headless := headless_mode w;
               driver := session w; posts := [] |}
            (extraction_clock w) 50
          = Returned (scraper', post :: scraped)
       /\ filepath = fst (save_to_json scraper' (json_clock w) None))
  /\ (forall filepath,
        In (WriteCsv filepath) (main w) ->
        exists json_path,
          In (WriteJson json_path) (main w)
          /\ write_json w json_path = Py.Ok tt).
Proof.
  assert (Hcases :
    forall call, In call (main w) ->
      (forall p, call <> WriteJson p) /\ (forall p, call <> WriteCsv p)
      \/ exists e1 e p1 p u1 u scraper' post scraped,
           getenv w "SKOOL_EMAIL" = Some (String e1 e)
           /\ getenv w "SKOOL_PASSWORD" = Some (String p1 p)
           /\ getenv w "COMMUNITY_URL" = Some (String u1 u)
           /\ login w (String e1 e) (String p1 p) = true
           /\ navigate_to_community w (String u1 u) = true
           /\ scrape_posts (builtin_hash w)
                {| community_url := String u1 u; headless := headless_mode w;
                   driver := session w; posts := [] |}
                (extraction_clock w) 50
              = Returned (scraper', post :: scraped)
           /\ In (WriteJson (fst (save_to_json scraper' (json_clock w) None)))
                (main w)
           /\ (call = WriteJson (fst (save_to_json scraper' (json_clock w) None))
               \/ (call = WriteCsv (fst (save_to_csv scraper' (csv_clock w) None))
                   /\ write_json w
                        (fst (save_to_json scraper' (json_clock w) None))
                      = Py.Ok tt))).
  { intros call Hin.
    destruct (getenv w "SKOOL_EMAIL") as [[|e1 e]|] eqn:He;
      try (unfold main in Hin; rewrite He in Hin; contradiction).
    destruct (getenv w "SKOOL_PASSWORD") as [[|p1 p]|] eqn:Hp;
      try (unfold main in Hin; rewrite He, Hp in Hin; contradiction).
    destruct (getenv w "COMMUNITY_URL") as [[|u1 u]|] eqn:Hu;
      try (unfold main in Hin; rewrite He, Hp, Hu in Hin; contradiction).
    rewrite (main_with_settings _ _ _ _ _ _ He Hp Hu) in *.
    destruct Hin as [<-|Hin]; [left; split; discriminate|].
    destruct (launch_chrome w (chrome_arguments (headless_mode w)));
      [|contradiction].
    apply in_app_or in Hin as [Hin|[<-|[]]]; [|left; split; discriminate].
    destruct Hin as [<-|Hin]; [left; split; discriminate|].
    destruct (login w (String e1 e) (String p1 p)) eqn:Hl; [|contradiction].
    destruct Hin as [<-|Hin]; [left; split; discriminate|].
    destruct (navigate_to_community w (String u1 u)) eqn:Hn; [|contradiction].
    pose proof Hin as Hin'.
    apply scrape_and_save_calls in Hin'
      as [->|(s' & post & scraped & Hs & Hcall)];
      [left; split; discriminate|].
    right. exists e1, e, p1, p, u1, u, s', post, scraped.
    repeat (split; [reflexivity || assumption|]). split; [|exact Hcall].
    right. apply in_or_app. left. right. right.
    unfold scrape_and_save. rewrite Hs. right. left. reflexivity. }
  split; intros filepath Hin; apply Hcases in Hin
    as [[Hj Hc]|(e1 & e & p1 & p & u1 & u & s' & post & scraped & He & Hp & Hu
                 & Hl & Hn & Hs & Hjson & [Hcall|[Hcall Hw]])];
    try (exfalso; eapply Hj; reflexivity);
    try (exfalso; eapply Hc; reflexivity);
    try discriminate.
  - injection Hcall as ->.
    exists (String e1 e), (String p1 p), (String u1 u), s', post, scraped.
    repeat (split; [assumption|]). reflexivity.
  - eexists. split; [exact Hjson|exact Hw].
Qed.

(** X20. The browser [main] starts is headless exactly when
    [HEADLESS_MODE] is unset or spells ["true"] in any mix of capitals:
    every other value, the empty one too, opens a window. *)
Theorem main_is_headless_unless_told arguments :
  In (StartChrome arguments) (main w) ->
  (In "--headless" arguments
   <-> getenv w "HEADLESS_MODE" = None
       \/ exists v, getenv w "HEADLESS_MODE" = Some v /\ lower v = "true").
Proof.
  intros Hin.
  assert (Hargs : arguments = chrome_arguments (headless_mode w)).
  { destruct (getenv w "SKOOL_EMAIL") as [[|e1 e]|] eqn:He;
      try (unfold main in Hin; rewrite He in Hin; contradiction).
    destruct (getenv w "SKOOL_PASSWORD") as [[|p1 p]|] eqn:Hp;
      try (unfold main in Hin; rewrite He, Hp in Hin; contradiction).
    destruct (getenv w "COMMUNITY_URL") as [[|u1 u]|] eqn:Hu;
      try (unfold main in Hin; rewrite He, Hp, Hu in Hin; contradiction).
    rewrite (main_with_settings _ _ _ _ _ _ He Hp Hu) in Hin.
    destruct Hin as [[= <-]|Hin]; [reflexivity|]. exfalso.
    destruct (launch_chrome w (chrome_arguments (headless_mode w)));
      [|contradiction].
    apply in_app_or in Hin as [Hin|[Hin|[]]]; [|discriminate].
    destruct Hin as [Hin|Hin]; [discriminate|].
    destruct (login w _ _); [|contradiction].
    destruct Hin as [Hin|Hin]; [discriminate|].
    destruct (navigate_to_community w _); [|contradiction].
    apply scrape_and_save_calls in Hin
      as [Hin|(s' & post & scraped & _ & [Hin|[Hin _]])]; discriminate. }
  subst arguments. unfold headless_mode, getenv_or.
  destruct (getenv w "HEADLESS_MODE") as [v|].
  - destruct (String.eqb_spec (lower v) "true") as [Heq|Hne].
    + split; [intros _; right; eauto|intros _; left; reflexivity].
    + split.
      * intros H. simpl in H.
        repeat (destruct H as [H|H]; [discriminate|]). destruct H.
      * intros [H|(v' & [= <-] & H)]; [discriminate|contradiction].
  - split; [intros _; now left|intros _; left; reflexivity].
Qed.

End MainMore.

Lemma main_quits_the_browser_it_started_witness :
  exists calls,
    main (fine_world full_env)
    = (StartChrome (chrome_arguments false) :: calls ++ [QuitChrome])%list
    /\ ~ In QuitChrome calls.
Proof.
  exact (main_quits_the_browser_it_started (fine_world full_env) eq_refl).
Defined.

Lemma main_is_headless_unless_told_witness :
  In (StartChrome (chrome_arguments false)) (main (fine_world full_env))
  /\ ~ In "--headless" (chrome_arguments false).
Proof.
  assert (Hin : In (StartChrome (chrome_arguments false))
                  (main (fine_world full_env))) by (left; reflexivity).
  split; [exact Hin|].
  intros H.
  apply (main_is_headless_unless_told (fine_world full_env) _ Hin) in H.
  destruct H as [H|(v & H & Hv)]; [discriminate|].
  injection H as <-. discriminate.
Defined.

(** The calls of a run in which everything works, and of one without the
    password. *)
Example main_in_a_fine_world :
  main (fine_world full_env)
  = [StartChrome (chrome_arguments false);
     LogIn "ada@example.org" "secret";
     Navigate "https://www.skool.com/community";
     Scrape 50;
     WriteJson "Skool/skool_posts_20240309_140507.json";
     WriteCsv "Skool/skool_posts_20240309_140507.csv";
     QuitChrome].
Proof. vm_compute. reflexivity. Qed.

Example main_without_password : main (fine_world partial_env) = [].
Proof. reflexivity. Qed.
